(** * dbctl cluster create: assembling a cluster specification

    A shallow embedding of [internal/dbctl/cmd/cluster/create.go] and the
    properties of its overlay, validation and pre-submit stages. *)

From Stdlib Require Import Strings.Byte.
From stdpp Require Import base option list strings gmap.

Set Warnings "-register-all".
Local Open Scope string_scope.

(** * Go preliminaries *)

(** A Go [error] is represented by the message it carries; [None] is the
    nil error. *)
Definition error : Type := option string.

Definition Errorf (msg : string) : error := Some msg.

(** Go code either runs to completion or panics.  None of the functions of
    create.go recovers from a panic. *)
Inductive exec (A : Type) : Type :=
  | Done (a : A)
  | Panic (msg : string).
Arguments Done {A} a.
Arguments Panic {A} msg.

Global Instance exec_ret : MRet exec := fun A a => Done a.
Global Instance exec_bind : MBind exec := fun A B f x =>
  match x with
  | Done a => f a
  | Panic msg => Panic msg
  end.
Global Instance exec_fmap : FMap exec := fun A B f x =>
  match x with
  | Done a => Done (f a)
  | Panic msg => Panic msg
  end.

(** A slice is either nil or a sequence of elements; create.go tests its
    slices against nil, so the two are kept apart. *)
Inductive slice (A : Type) : Type :=
  | SliceNil
  | SliceOf (elems : list A).
Arguments SliceNil {A}.
Arguments SliceOf {A} elems.

Definition slice_elems {A} (s : slice A) : list A :=
  match s with
  | SliceNil => []
  | SliceOf l => l
  end.

(** * Open documents

    The dynamic values of type [interface{}] found in a decoded document:
    nil, booleans, strings, numbers, [[]interface{}] and
    [map[string]interface{}].  Documents are trees, as [json.Unmarshal]
    builds them. *)
Inductive value : Type :=
  | VNil
  | VBool (b : bool)
  | VString (s : string)
  | VInt64 (n : Z)
  | VFloat64 (bits : Z)
  | VList (l : list value)
  | VMap (m : gmap string value).

(** A variable of the static type [map[string]interface{}]: the nil map or
    a map.  An entry of [[]map[string]interface{}] decoded from a JSON
    [null] is the nil map. *)
Inductive GoMap : Type :=
  | MapNil
  | MapOf (m : gmap string value).

(** [m[k]]: reading a missing key, or any key of the nil map, gives the zero
    value of [interface{}]. *)
Definition map_index (m : GoMap) (k : string) : value :=
  match m with
  | MapNil => VNil
  | MapOf m => default VNil (m !! k)
  end.

(** [m[k] = v]: assignment to an entry of the nil map panics. *)
Definition map_assign (m : GoMap) (k : string) (v : value) : exec GoMap :=
  match m with
  | MapNil => Panic "assignment to entry in nil map"
  | MapOf m => Done (MapOf (<[k := v]> m))
  end.

(** ** k8s.io/apimachinery [unstructured] helpers

    Library functions called by create.go, transcribed from
    [unstructured/helpers.go]. *)
Module unstructured.

(** [NestedFieldNoCopy]: walks [fields] through nested maps.  Returns the
    value, whether it was found, and an error when a non-map is met on the
    way. *)
Fixpoint NestedFieldNoCopy_from (val : value) (fields : list string)
  : value * bool * error :=
  match fields with
  | [] => (val, true, None)
  | field :: rest =>
      match val with
      | VNil => (VNil, false, None)
      | VMap m =>
          match m !! field with
          | Some v => NestedFieldNoCopy_from v rest
          | None => (VNil, false, None)
          end
      | _ => (VNil, false, Errorf ("accessor error: not a map at " +:+ field))
      end
  end.

Definition NestedFieldNoCopy (obj : gmap string value) (fields : list string)
  : value * bool * error :=
  NestedFieldNoCopy_from (VMap obj) fields.

(** [NestedString]: the string at [fields]; the empty string when the
    field is missing or is not a string. *)
Definition NestedString (obj : gmap string value) (fields : list string)
  : string * bool * error :=
  match NestedFieldNoCopy obj fields with
  | (val, true, None) =>
      match val with
      | VString s => (s, true, None)
      | _ => ("", false, Errorf "accessor error: expected string")
      end
  | (_, found, err) => ("", found, err)
  end.

(** [DeepCopyJSONValue]: a deep copy; on immutable trees, the identity. *)
Definition DeepCopyJSONValue (v : value) : value := v.

(** [setNestedFieldNoCopy obj value fields...], with [fields] given as
    [path = fields[:len(fields)-1]] and [last = fields[len(fields)-1]]:
    descends through the maps named by [path], creating the missing
    ones, and assigns [last] in the map reached.  When a field of [path]
    holds something that is not a map, nothing is written there and an
    error is returned.  Returns [obj] as the call leaves it. *)
Fixpoint setNestedFieldNoCopy (obj : gmap string value) (val : value)
  (path : list string) (last : string) : gmap string value * error :=
  match path with
  | [] => (<[last := val]> obj, None)
  | field :: rest =>
      match obj !! field with
      | Some (VMap valMap) =>
          let '(valMap', err) := setNestedFieldNoCopy valMap val rest last in
          (<[field := VMap valMap']> obj, err)
      | Some _ =>
          (obj, Errorf ("value cannot be set because " +:+ field +:+
                        " is not a map[string]interface{}"))
      | None =>
          let '(newVal, err) := setNestedFieldNoCopy ∅ val rest last in
          (<[field := VMap newVal]> obj, err)
      end
  end.

Definition SetNestedField (obj : gmap string value) (val : value)
  (path : list string) (last : string) : gmap string value * error :=
  setNestedFieldNoCopy obj (DeepCopyJSONValue val) path last.

End unstructured.

(** * create.go *)

Definition monitorKey : string := "monitor".

(** Loop body of [setMonitor]: [component[monitorKey] = monitor] for each
    component in turn. *)
Fixpoint setMonitor_range (monitor : bool) (components : list GoMap)
  : exec (list GoMap) :=
  match components with
  | [] => Done []
  | component :: rest =>
      component' ← map_assign component monitorKey (VBool monitor);
      rest' ← setMonitor_range monitor rest;
      mret (component' :: rest')
  end.

(** [setMonitor]: the component list after the call. *)
Definition setMonitor (monitor : bool) (components : slice GoMap)
  : exec (slice GoMap) :=
  match components with
  | SliceNil => Done SliceNil
  | SliceOf cs => SliceOf <$> setMonitor_range monitor cs
  end.

(** The call returns, and every component of the list then carries the
    monitor flag. *)
Definition setMonitor_writes_all (monitor : bool) (cs : list GoMap) : Prop :=
  ∃ cs', setMonitor monitor (SliceOf cs) = Done (SliceOf cs') ∧
         Forall (fun c' => map_index c' monitorKey = VBool monitor) cs'.

(** ** The outside world

    The calls create.go makes to the control plane, the network and the
    file system are recorded in a trace, in the order they are made. *)

Module schema.
Record GroupVersionResource : Type := {
  Group : string;
  Version : string;
  Resource : string;
}.
End schema.

(** An [unstructured.Unstructured] resource: its [Object] content. *)
Record Unstructured : Type := { Object : gmap string value }.

(** [obj.SetUnstructuredContent(content)] *)
Definition SetUnstructuredContent (obj : Unstructured)
  (content : gmap string value) : Unstructured :=
  {| Object := content |}.

Inductive Event : Type :=
  | EvResourceGet (gvr : schema.GroupVersionResource) (namespace name : string)
  | EvHttpGet (url : string)
  | EvCloseBody (url : string)
  | EvOpen (path : string)
  | EvCloseFile (path : string).

(** ** [io.Reader] and [io.ReadAll]

    A reader is described by what its successive [Read] calls deliver:
    chunks of bytes, ended by the end of the stream or by a failure. *)
Inductive Reader : Type :=
  | EOF
  | Chunk (p : list byte) (next : Reader)
  | Failure (err : string).

(** The loop of [io.ReadAll]: appends what each [Read] delivers to [b];
    returns [b] with a nil error at the end of the stream, and [b] with the
    error when a [Read] fails. *)
Fixpoint ReadAll_loop (b : list byte) (r : Reader) : slice byte * error :=
  match r with
  | EOF => (SliceOf b, None)
  | Chunk p next => ReadAll_loop (b ++ p) next
  | Failure err => (SliceOf b, Some err)
  end.

Definition ReadAll (r : Reader) : slice byte * error := ReadAll_loop [] r.

(** The bytes a reader delivers before it ends, and how it ends. *)
Fixpoint delivered (r : Reader) : list byte :=
  match r with
  | EOF => []
  | Chunk p next => p ++ delivered next
  | Failure _ => []
  end.

Fixpoint failure (r : Reader) : error :=
  match r with
  | EOF => None
  | Chunk _ next => failure next
  | Failure err => Some err
  end.

(** What the network and the file system answer, and the trace so far. *)
Record World : Type := {
  http_server : string → Reader + string;
  file_system : string → Reader + string;
  trace : list Event;
}.

(** Computations of create.go: they may panic, and they extend the trace. *)
Definition M (A : Type) : Type := World → exec (A * World).

Global Instance M_ret : MRet M := fun A a w => Done (a, w).
Global Instance M_bind : MBind M := fun A B f m w =>
  match m w with
  | Done (a, w') => f a w'
  | Panic msg => Panic msg
  end.

Definition lift {A} (x : exec A) : M A := fun w =>
  match x with
  | Done a => Done (a, w)
  | Panic msg => Panic msg
  end.

(** The world once the calls [es] have been made. *)
Definition after (w : World) (es : list Event) : World :=
  {| http_server := http_server w;
     file_system := file_system w;
     trace := trace w ++ es |}.

Definition emit (e : Event) : M unit := fun w => Done (tt, after w [e]).

(** [http.Get(url)]: the response body, or the connection error. *)
Definition http_Get (url : string) : M (Reader + string) := fun w =>
  (_ ← emit (EvHttpGet url); mret (http_server w url)) w.

(** [os.Open(name)] *)
Definition os_Open (name : string) : M (Reader + string) := fun w =>
  (_ ← emit (EvOpen name); mret (file_system w name)) w.

(** ** [strings.Index]

    The index of the first instance of [substr] in [s], or -1. *)
Fixpoint Index_from (i : Z) (s substr : string) : Z :=
  if String.prefix substr s then i
  else match s with
       | EmptyString => (-1)%Z
       | String _ s' => Index_from (i + 1)%Z s' substr
       end.

Definition Index (s substr : string) : Z := Index_from 0%Z s substr.

(** ** Options of the command *)

Module dynamic.
(** The dynamic client, by what
    [Resource(gvr).Namespace(ns).Get(ctx, name, opts)] answers. *)
Record Interface : Type := {
  answer : schema.GroupVersionResource → string → string → Unstructured + string;
}.

Definition Get (c : Interface) (gvr : schema.GroupVersionResource)
  (namespace name : string) : M (Unstructured + string) :=
  _ ← emit (EvResourceGet gvr namespace name);
  mret (answer c gvr namespace name).
End dynamic.

Module types.
(** The constants of [internal/dbctl/types] that create.go uses.  The
    package is not in create.go: their values are a parameter. *)
Record Constants : Type := {
  DPGroup : string;
  DPVersion : string;
  ResourceBackupJobs : string;
  ClusterDefGVR : schema.GroupVersionResource;
}.
End types.

Module genericclioptions.
Record IOStreams : Type := { In : Reader }.
End genericclioptions.

Module create.
(** Modelled from the spec: the declaration of [create.BaseOptions], which
    is not in create.go; the fields create.go reads. *)
Record BaseOptions : Type := {
  Namespace : string;
  Name : string;
  Client : dynamic.Interface;
  IOStreams : genericclioptions.IOStreams;
}.
End create.

Record CreateOptions : Type := {
  ClusterDefRef : string;
  AppVersionRef : string;
  TerminationPolicy : string;
  PodAntiAffinity : string;
  Monitor : bool;
  EnableAllLogs : bool;
  TopologyKeys : slice string;
  NodeLabels : option (gmap string string);
  Components : slice GoMap;
  ComponentsFilePath : string;
  Backup : string;
  BaseOptions : create.BaseOptions;
}.

(** ** [setBackup] *)

(** [x.([]interface{})] *)
Definition assert_list (x : value) : exec (list value) :=
  match x with
  | VList l => Done l
  | _ => Panic "interface conversion: interface {} is not []interface {}"
  end.

(** [x.(map[string]interface{})] *)
Definition assert_map (x : value) : exec (gmap string value) :=
  match x with
  | VMap m => Done m
  | _ => Panic "interface conversion: interface {} is not map[string]interface {}"
  end.

(** Inner loop: [for _, t := range templates]. The error of
    [SetNestedField] is dropped, as [_ =] does. *)
Fixpoint setBackup_templates (dataSource : gmap string value)
  (templates : list value) : exec (list value) :=
  match templates with
  | [] => Done []
  | t :: rest =>
      templateMap ← assert_map t;
      let '(templateMap', _) :=
        unstructured.SetNestedField templateMap (VMap dataSource)
          ["spec"] "dataSource" in
      rest' ← setBackup_templates dataSource rest;
      mret (VMap templateMap' :: rest')
  end.

(** One round of the outer loop.  The template maps are updated in place;
    the component is returned with its templates as the round leaves
    them. *)
Definition setBackup_component (dataSource : gmap string value)
  (component : GoMap) : exec GoMap :=
  templates ← assert_list (map_index component "volumeClaimTemplates");
  templates' ← setBackup_templates dataSource templates;
  match component with
  | MapNil => Done MapNil
  | MapOf m => Done (MapOf (<["volumeClaimTemplates" := VList templates']> m))
  end.

(** Outer loop: [for _, component := range components]. *)
Fixpoint setBackup_range (dataSource : gmap string value)
  (components : list GoMap) : exec (list GoMap) :=
  match components with
  | [] => Done []
  | component :: rest =>
      component' ← setBackup_component dataSource component;
      rest' ← setBackup_range dataSource rest;
      mret (component' :: rest')
  end.

(** The descriptor built by the three [SetNestedField] calls on
    [dataSource]. *)
Definition dataSource_of (backup : string) : gmap string value :=
  let dataSource := ∅ in
  let dataSource :=
    (unstructured.SetNestedField dataSource (VString backup) [] "name").1 in
  let dataSource :=
    (unstructured.SetNestedField dataSource (VString "VolumeSnapshot") [] "kind").1 in
  let dataSource :=
    (unstructured.SetNestedField dataSource (VString "snapshot.storage.k8s.io")
       [] "apiGroup").1 in
  dataSource.

Section SetBackup.
Variable T : types.Constants.

(** [setBackup]: the component list after the call, and the error
    returned. *)
Definition setBackup (o : CreateOptions) (components : slice GoMap)
  : M (slice GoMap * error) :=
  let backup := Backup o in
  if Nat.eqb (String.length backup) 0 then mret (components, None)
  else
    match components with
    | SliceNil => mret (components, None)
    | SliceOf cs =>
        let gvr := {| schema.Group := types.DPGroup T;
                      schema.Version := types.DPVersion T;
                      schema.Resource := types.ResourceBackupJobs T |} in
        r ← dynamic.Get (create.Client (BaseOptions o)) gvr
              (create.Namespace (BaseOptions o)) backup;
        match r with
        | inr err => mret (components, Some err)
        | inl backupJobObj =>
            let '(backupType, _, _) :=
              unstructured.NestedString (Object backupJobObj)
                ["spec"; "backupType"] in
            if negb (String.eqb backupType "snapshot") then
              mret (components,
                    Errorf ("only support snapshot backup, specified backup type is '"
                            +:+ backupType +:+ "'"))
            else
              cs' ← lift (setBackup_range (dataSource_of backup) cs);
              mret (SliceOf cs', None)
        end
    end.
End SetBackup.

(** *** Shapes of components

    What [setBackup] expects of a component, and what it leaves behind. *)

Definition is_map (v : value) : bool :=
  match v with
  | VMap _ => true
  | _ => false
  end.

(** The component carries a [volumeClaimTemplates] field that is a list of
    maps. *)
Definition carries_templates (component : GoMap) : bool :=
  match map_index component "volumeClaimTemplates" with
  | VList templates => forallb is_map templates
  | _ => false
  end.

(** The template is a map whose [spec] field is absent or a map. *)
Definition spec_settable (t : value) : bool :=
  match t with
  | VMap templateMap =>
      match templateMap !! "spec" with
      | None | Some (VMap _) => true
      | Some _ => false
      end
  | _ => false
  end.

Definition templates_settable (component : GoMap) : bool :=
  match map_index component "volumeClaimTemplates" with
  | VList templates => forallb spec_settable templates
  | _ => false
  end.

(** The data-source descriptor, as the specification writes it. *)
Definition descriptor (backup : string) : gmap string value :=
  {[ "name" := VString backup;
     "kind" := VString "VolumeSnapshot";
     "apiGroup" := VString "snapshot.storage.k8s.io" ]}.

(** Every entry of the component's [volumeClaimTemplates] has the descriptor
    at [spec.dataSource]. *)
Definition wired (backup : string) (component : GoMap) : Prop :=
  ∃ templates,
    map_index component "volumeClaimTemplates" = VList templates ∧
    Forall (fun t => ∃ templateMap,
              t = VMap templateMap ∧
              unstructured.NestedFieldNoCopy templateMap ["spec"; "dataSource"]
              = (VMap (descriptor backup), true, None)) templates.

(** What one round of the inner loop leaves of a template that is a map. *)
Definition wire_template (dataSource : gmap string value) (t : value) : value :=
  match t with
  | VMap templateMap =>
      VMap (unstructured.SetNestedField templateMap (VMap dataSource)
              ["spec"] "dataSource").1
  | _ => t
  end.

(** What one round of the outer loop leaves of a component that carries
    templates. *)
Definition wire_component (dataSource : gmap string value) (component : GoMap)
  : GoMap :=
  match component with
  | MapOf m =>
      match m !! "volumeClaimTemplates" with
      | Some (VList templates) =>
          MapOf (<["volumeClaimTemplates" :=
                    VList (wire_template dataSource <$> templates)]> m)
      | _ => component
      end
  | MapNil => MapNil
  end.

(** The request reaches the remote lookup and the backup job [job] is
    answered. *)
Definition resolves (T : types.Constants)
  (o : CreateOptions) (job : Unstructured) : Prop :=
  Backup o ≠ "" ∧
  dynamic.answer (create.Client (BaseOptions o))
    {| schema.Group := types.DPGroup T; schema.Version := types.DPVersion T;
       schema.Resource := types.ResourceBackupJobs T |}
    (create.Namespace (BaseOptions o)) (Backup o) = inl job.

(** The backup type [setBackup] reads off a backup job. *)
Definition backupType_of (job : Unstructured) : string :=
  (unstructured.NestedString (Object job) ["spec"; "backupType"]).1.1.

(** The message of the rejection. *)
Definition only_snapshot (backupType : string) : string :=
  "only support snapshot backup, specified backup type is '" +:+ backupType +:+ "'".

(** The lookup of the backup job, as it shows in the trace. *)
Definition backup_lookup (T : types.Constants)
  (o : CreateOptions) : Event :=
  EvResourceGet
    {| schema.Group := types.DPGroup T; schema.Version := types.DPVersion T;
       schema.Resource := types.ResourceBackupJobs T |}
    (create.Namespace (BaseOptions o)) (Backup o).

(** ** [Validate] *)

(** The message of the termination-policy check. *)
Definition terminationPolicy_needed : string :=
  "a valid termination policy is needed, use --termination-policy to specify one of: DoNotTerminate, Halt, Delete, WipeOut".

Definition Validate (o : CreateOptions) : error :=
  if String.eqb (create.Name (BaseOptions o)) "" then
    Errorf "missing cluster name"
  else if String.eqb (TerminationPolicy o) "" then
    Errorf terminationPolicy_needed
  else if Nat.eqb (String.length (ComponentsFilePath o)) 0 then
    Errorf "a valid component local file path, URL, or stdin is needed"
  else None.

(** The values offered by [terminationPolicyCompletionFunc]. *)
Definition terminationPolicies : list string :=
  ["DoNotTerminate"; "Halt"; "Delete"; "WipeOut"].

(** ** [multipleSourceComponents] *)
Definition multipleSourceComponents (fileName : string)
  (streams : genericclioptions.IOStreams) : M (slice byte * error) :=
  if String.eqb fileName "-" then
    mret (ReadAll (genericclioptions.In streams))
  else if Z.eqb (Index fileName "http://") 0 || Z.eqb (Index fileName "https://") 0 then
    resp ← http_Get fileName;
    match resp with
    | inr err => mret (SliceNil, Some err)
    | inl body =>
        let result := ReadAll body in
        _ ← emit (EvCloseBody fileName);
        mret result
    end
  else
    f ← os_Open fileName;
    match f with
    | inr err => mret (SliceNil, Some err)
    | inl data =>
        let result := ReadAll data in
        _ ← emit (EvCloseFile fileName);
        mret result
    end.

(** ** The typed resources of [apis/dbaas/v1alpha1] *)

Module dbaasv1alpha1.

Module LogConfig.
(** Modelled from the spec: the declaration of [LogConfig], which is not in
    create.go; a named log configuration of a component type. *)
Record t : Type := { Name : string; FilePathPattern : string }.
End LogConfig.

Module ClusterDefinitionComponent.
(** Modelled from the spec: the declaration of [ClusterDefinitionComponent],
    which is not in create.go; a component type with its ordered log
    configurations. *)
Record t : Type := { TypeName : string; LogConfigs : list LogConfig.t }.
End ClusterDefinitionComponent.

Module ClusterDefinitionSpec.
(** Modelled from the spec: the declaration of [ClusterDefinitionSpec],
    which is not in create.go; the list of component types. *)
Record t : Type := { Components : list ClusterDefinitionComponent.t }.
End ClusterDefinitionSpec.

Module ClusterDefinition.
(** Modelled from the spec: the declaration of [ClusterDefinition], which is
    not in create.go. *)
Record t : Type := { Spec : ClusterDefinitionSpec.t }.
End ClusterDefinition.

Module ClusterComponent.
(** Modelled from the spec: the declaration of [ClusterComponent], which is
    not in create.go; the fields the specification names ([Type_] is the
    field [Type]). *)
Record t : Type := {
  Name : string;
  Type_ : string;
  Monitor : bool;
  EnabledLogs : list string;
  VolumeClaimTemplates : list value;
}.

(** [component.EnabledLogs = logs] *)
Definition set_EnabledLogs (logs : list string) (component : t) : t :=
  {| Name := Name component;
     Type_ := Type_ component;
     Monitor := Monitor component;
     EnabledLogs := logs;
     VolumeClaimTemplates := VolumeClaimTemplates component |}.
End ClusterComponent.

Module ClusterSpec.
(** Modelled from the spec: the declaration of [ClusterSpec], which is not
    in create.go; the fields of the request that reach the document. *)
Record t : Type := {
  ClusterDefRef : string;
  AppVersionRef : string;
  TerminationPolicy : string;
  Components : list ClusterComponent.t;
}.

(** [spec.Components = components] *)
Definition set_Components (components : list ClusterComponent.t) (spec : t) : t :=
  {| ClusterDefRef := ClusterDefRef spec;
     AppVersionRef := AppVersionRef spec;
     TerminationPolicy := TerminationPolicy spec;
     Components := components |}.
End ClusterSpec.

Module Cluster.
(** Modelled from the spec: the declaration of [Cluster], which is not in
    create.go. *)
Record t : Type := { Spec : ClusterSpec.t }.
End Cluster.

End dbaasv1alpha1.

Import dbaasv1alpha1.

Module runtime.
(** [runtime.DefaultUnstructuredConverter], by the conversions create.go
    asks of it: a document into a [Cluster] or a [ClusterDefinition], and a
    [Cluster] back into a document.  Each may fail. *)
Record UnstructuredConverter : Type := {
  FromUnstructured_Cluster : gmap string value → Cluster.t + string;
  FromUnstructured_ClusterDefinition :
    gmap string value → ClusterDefinition.t + string;
  ToUnstructured : Cluster.t → gmap string value + string;
}.
End runtime.

Section PreSubmit.
(** [strings.EqualFold]: equality of strings under Unicode case
    folding. *)
Variable EqualFold : string → string → bool.

(** [typeList]: starts empty; the name of each log configuration is
    appended in turn. *)
Definition typeList_of (com : ClusterDefinitionComponent.t) : list string :=
  fold_left (fun (typeList : list string) logConf =>
               (typeList ++ [LogConfig.Name logConf])%list)
    (ClusterDefinitionComponent.LogConfigs com) [].

(** Inner loop: [for _, com := range cd.Spec.Components], for the cluster
    component [comCluster] found at [idx]. *)
Fixpoint setEnableAllLogs_definitions (idx : nat) (comCluster : ClusterComponent.t)
  (coms : list ClusterDefinitionComponent.t)
  (components : list ClusterComponent.t) : list ClusterComponent.t :=
  match coms with
  | [] => components
  | com :: coms' =>
      if negb (EqualFold (ClusterComponent.Type_ comCluster)
                 (ClusterDefinitionComponent.TypeName com))
      then setEnableAllLogs_definitions idx comCluster coms' components
      else
        let typeList := typeList_of com in
        setEnableAllLogs_definitions idx comCluster coms'
          (alter (ClusterComponent.set_EnabledLogs typeList) idx components)
  end.

(** Outer loop: [for idx, comCluster := range c.Spec.Components], over
    the indices still to visit. *)
Fixpoint setEnableAllLogs_range (idxs : list nat)
  (coms : list ClusterDefinitionComponent.t)
  (components : list ClusterComponent.t) : list ClusterComponent.t :=
  match idxs with
  | [] => components
  | idx :: idxs' =>
      match components !! idx with
      | Some comCluster =>
          setEnableAllLogs_range idxs' coms
            (setEnableAllLogs_definitions idx comCluster coms components)
      | None => components
      end
  end.

(** [setEnableAllLogs]: the cluster after the call. *)
Definition setEnableAllLogs (c : Cluster.t) (cd : ClusterDefinition.t) : Cluster.t :=
  let components := ClusterSpec.Components (Cluster.Spec c) in
  {| Cluster.Spec :=
       ClusterSpec.set_Components
         (setEnableAllLogs_range (seq 0 (length components))
            (ClusterDefinitionSpec.Components (ClusterDefinition.Spec cd))
            components)
         (Cluster.Spec c) |}.

(** The definition entries whose type name matches [type_], in the order of
    the definition. *)
Definition matching_definitions (type_ : string)
  (coms : list ClusterDefinitionComponent.t) : list ClusterDefinitionComponent.t :=
  filter (fun com => EqualFold type_ (ClusterDefinitionComponent.TypeName com) = true)
    coms.

(** The enabled logs the specification gives a component: the names of the
    log configurations of the matching definition entry (the last one, were
    there several), in their order; the component's own when no entry
    matches. *)
Definition expected_EnabledLogs (coms : list ClusterDefinitionComponent.t)
  (component : ClusterComponent.t) : list string :=
  match last (matching_definitions (ClusterComponent.Type_ component) coms) with
  | Some com => LogConfig.Name <$> ClusterDefinitionComponent.LogConfigs com
  | None => ClusterComponent.EnabledLogs component
  end.

Variable T : types.Constants.
Variable DefaultUnstructuredConverter : runtime.UnstructuredConverter.

(** [PreCreate]: the document after the call, and the error returned. *)
Definition PreCreate (o : CreateOptions) (obj : Unstructured)
  : M (Unstructured * error) :=
  if negb (EnableAllLogs o) then mret (obj, None)
  else
    match runtime.FromUnstructured_Cluster DefaultUnstructuredConverter
            (Object obj) with
    | inr err => mret (obj, Some err)
    | inl c =>
        res ← dynamic.Get (create.Client (BaseOptions o))
                (types.ClusterDefGVR T) ""
                (ClusterSpec.ClusterDefRef (Cluster.Spec c));
        match res with
        | inr err => mret (obj, Some err)
        | inl res =>
            match runtime.FromUnstructured_ClusterDefinition
                    DefaultUnstructuredConverter (Object res) with
            | inr err => mret (obj, Some err)
            | inl cd =>
                let c := setEnableAllLogs c cd in
                match runtime.ToUnstructured DefaultUnstructuredConverter c with
                | inr e => mret (obj, Some e)
                | inl data => mret (SetUnstructuredContent obj data, None)
                end
            end
        end
    end.
End PreSubmit.

(** ** [Complete] *)

(** What [Complete] leaves behind when it returns: the component list
    assigned to [o.Components] together with the nil error, or the error.
    When an error is returned, [o.Components] is not assigned. *)
Inductive completion : Type :=
  | Completed (components : slice GoMap)
  | NotCompleted (err : string).

Section CompleteStage.
Variable T : types.Constants.

(** [yaml.YAMLToJSON], and [json.Unmarshal] into the variable [components]:
    the new value of the variable, given the bytes and its value so far.
    Both are library functions: parameters. *)
Variable YAMLToJSON : slice byte → slice byte + string.
Variable Unmarshal : slice byte → slice GoMap → slice GoMap + string.

Definition Complete (o : CreateOptions) : M completion :=
  let components := Components o in
  loaded ←
    (if (0 <? String.length (ComponentsFilePath o))%nat then
       '(componentByte, err) ←
         multipleSourceComponents (ComponentsFilePath o)
           (create.IOStreams (BaseOptions o));
       match err with
       | Some e => mret (inr e)
       | None =>
           match YAMLToJSON componentByte with
           | inr e => mret (inr e)
           | inl componentByte =>
               match Unmarshal componentByte components with
               | inr e => mret (inr e)
               | inl components => mret (inl components)
               end
           end
       end
     else mret (inl components));
  match loaded with
  | inr e => mret (NotCompleted e)
  | inl components =>
      components ← lift (setMonitor (Monitor o) components);
      '(components, err) ← setBackup T o components;
      match err with
      | Some e => mret (NotCompleted e)
      | None => mret (Completed components)
      end
  end.
End CompleteStage.

(** *** What the overlays leave alone *)

(** [m'] has the entries of [m], but for the key [k]. *)
Definition same_except (k : string) (m m' : gmap string value) : Prop :=
  ∀ k', k' ≠ k → m' !! k' = m !! k'.

(** A template before and after the backup overlay: only [spec] may differ;
    a [spec] that is a map differs in [dataSource] only; a template whose
    [spec] is anything else is the same. *)
Definition template_frame (t t' : value) : Prop :=
  ∃ templateMap templateMap',
    t = VMap templateMap ∧ t' = VMap templateMap' ∧
    same_except "spec" templateMap templateMap' ∧
    match templateMap !! "spec" with
    | Some (VMap spec) =>
        ∃ spec', templateMap' !! "spec" = Some (VMap spec') ∧
                 same_except "dataSource" spec spec'
    | Some _ => templateMap' = templateMap
    | None => True
    end.

(** A component before and after the backup overlay: only the templates
    may differ, one for one. *)
Definition component_frame (c c' : GoMap) : Prop :=
  ∃ m m' templates templates',
    c = MapOf m ∧ c' = MapOf m' ∧
    same_except "volumeClaimTemplates" m m' ∧
    m !! "volumeClaimTemplates" = Some (VList templates) ∧
    m' !! "volumeClaimTemplates" = Some (VList templates') ∧
    Forall2 template_frame templates templates'.

(** A cluster component before and after log enablement: only
    [EnabledLogs] may differ. *)
Definition logs_frame (component component' : ClusterComponent.t) : Prop :=
  ClusterComponent.Name component' = ClusterComponent.Name component ∧
  ClusterComponent.Type_ component' = ClusterComponent.Type_ component ∧
  ClusterComponent.Monitor component' = ClusterComponent.Monitor component ∧
  ClusterComponent.VolumeClaimTemplates component'
  = ClusterComponent.VolumeClaimTemplates component.

(** * Sample data

    The requests and documents of the scenarios, used to run the
    definitions on concrete inputs. *)
Module Sample.

Definition T : types.Constants :=
  {| types.DPGroup := "dataprotection.kubeblocks.io";
     types.DPVersion := "v1alpha1";
     types.ResourceBackupJobs := "backupjobs";
     types.ClusterDefGVR :=
       {| schema.Group := "dbaas.kubeblocks.io"; schema.Version := "v1alpha1";
          schema.Resource := "clusterdefinitions" |} |}.

(** A converter that understands no document. *)
Definition converter : runtime.UnstructuredConverter :=
  {| runtime.FromUnstructured_Cluster := fun _ => inr "unsupported";
     runtime.FromUnstructured_ClusterDefinition := fun _ => inr "unsupported";
     runtime.ToUnstructured := fun _ => inr "unsupported" |}.

Definition backupJob (backupType : value) : Unstructured :=
  {| Object := {[ "spec" := VMap {[ "backupType" := backupType ]} ]} |}.

(** A control plane holding a full backup [snap1], a snapshot backup
    [snap2] and a backup job [snap3] that declares no type. *)
Definition client : dynamic.Interface :=
  {| dynamic.answer := fun _ _ name =>
       if String.eqb name "snap1" then inl (backupJob (VString "full"))
       else if String.eqb name "snap2" then inl (backupJob (VString "snapshot"))
       else if String.eqb name "snap3" then inl {| Object := {[ "spec" := VMap ∅ ]} |}
       else inr "not found" |}.

(** Standard input delivers [ab], then breaks. *)
Definition broken_stdin : Reader := Chunk ["a"%byte; "b"%byte] (Failure "read error").

Definition base (name : string) : create.BaseOptions :=
  {| create.Namespace := "default"; create.Name := name;
     create.Client := client;
     create.IOStreams := {| genericclioptions.In := broken_stdin |} |}.

Definition options (name policy path backup : string) (logs : bool) : CreateOptions :=
  {| ClusterDefRef := "apecloud-wesql"; AppVersionRef := "wesql-8.0.30";
     TerminationPolicy := policy; PodAntiAffinity := "Preferred";
     Monitor := false; EnableAllLogs := logs; TopologyKeys := SliceNil;
     NodeLabels := None; Components := SliceNil;
     ComponentsFilePath := path; Backup := backup;
     BaseOptions := base name |}.

Definition world : World :=
  {| http_server := fun url =>
       if String.eqb url "http://kubeblocks.io/yamls/wesql_single.yaml"
       then inl (Chunk ["-"%byte] EOF) else inr "connection refused";
     file_system := fun path =>
       if String.eqb path "component.yaml"
       then inl (Chunk ["["%byte] (Chunk ["]"%byte] EOF)) else inr "no such file";
     trace := [] |}.

(** [strings.EqualFold] on ASCII strings: letters are compared without
    regard to case. *)
Definition lower (c : Ascii.ascii) : Ascii.ascii :=
  let n := Ascii.nat_of_ascii c in
  if (65 <=? n)%nat && (n <=? 90)%nat then Ascii.ascii_of_nat (n + 32) else c.

Fixpoint EqualFold (s t : string) : bool :=
  match s, t with
  | EmptyString, EmptyString => true
  | String a s', String b t' => Ascii.eqb (lower a) (lower b) && EqualFold s' t'
  | _, _ => false
  end.

(** A definition with a type [proxy] without log configurations and a type
    [T1] with log configurations [error], [slow]. *)
Definition proxy_entry : ClusterDefinitionComponent.t :=
  {| ClusterDefinitionComponent.TypeName := "proxy";
     ClusterDefinitionComponent.LogConfigs := [] |}.

Definition t1_entry : ClusterDefinitionComponent.t :=
  {| ClusterDefinitionComponent.TypeName := "T1";
     ClusterDefinitionComponent.LogConfigs :=
       [ {| LogConfig.Name := "error";
            LogConfig.FilePathPattern := "/log/error.log" |};
         {| LogConfig.Name := "slow";
            LogConfig.FilePathPattern := "/log/slow.log" |} ] |}.

Definition definition : ClusterDefinition.t :=
  {| ClusterDefinition.Spec :=
       {| ClusterDefinitionSpec.Components := [proxy_entry; t1_entry] |} |}.

Definition component (name type_ : string) (logs : list string) : ClusterComponent.t :=
  {| ClusterComponent.Name := name; ClusterComponent.Type_ := type_;
     ClusterComponent.Monitor := false; ClusterComponent.EnabledLogs := logs;
     ClusterComponent.VolumeClaimTemplates := [] |}.

Definition cluster (components : list ClusterComponent.t) : Cluster.t :=
  {| Cluster.Spec :=
       {| ClusterSpec.ClusterDefRef := "apecloud-wesql";
          ClusterSpec.AppVersionRef := "wesql-8.0.30";
          ClusterSpec.TerminationPolicy := "Halt";
          ClusterSpec.Components := components |} |}.

(** [{name: c1, type: t1, volumeClaimTemplates: [{spec: {}}]}] *)
Definition c1 : gmap string value :=
  {[ "name" := VString "c1"; "type" := VString "t1";
     "volumeClaimTemplates" := VList [VMap {[ "spec" := VMap ∅ ]}] ]}.

(** A component whose template has a [spec] that is not a map. *)
Definition c2 : gmap string value :=
  {[ "name" := VString "c2";
     "volumeClaimTemplates" := VList [VMap {[ "spec" := VString "standard" ]}] ]}.

(** A component without [volumeClaimTemplates]. *)
Definition c3 : gmap string value := {[ "name" := VString "c3" ]}.

(** Decoders that know two documents: [[]], the empty list, and [-], which
    stands for a list holding the component [c1]. *)
Definition YAMLToJSON (b : slice byte) : slice byte + string := inl b.

Definition Unmarshal (b : slice byte) (components : slice GoMap)
  : slice GoMap + string :=
  match b with
  | SliceOf ["["%byte; "]"%byte] => inl (SliceOf [])
  | SliceOf ["-"%byte] => inl (SliceOf [MapOf c1])
  | _ => inr "cannot unmarshal"
  end.

End Sample.

(** * Properties *)

(** ** Validation *)

Lemma Validate_nil_iff (o : CreateOptions) :
  Validate o = None ↔
  create.Name (BaseOptions o) ≠ "" ∧ TerminationPolicy o ≠ "" ∧ ComponentsFilePath o ≠ "".
Proof.
  unfold Validate.
  destruct (String.eqb_spec (create.Name (BaseOptions o)) "") as [Hn|Hn];
    [split; [discriminate | tauto] |].
  destruct (String.eqb_spec (TerminationPolicy o) "") as [Hp|Hp];
    [split; [discriminate | tauto] |].
  destruct (ComponentsFilePath o) as [|a path]; simpl.
  - split; [discriminate | tauto].
  - split; [intros _; repeat split; congruence | reflexivity].
Qed.

(** C1, as stated, fails: [Validate] accepts a termination policy outside
    the four enumerated values (here the one of the command's own first
    example). *)
Lemma Validate_accepts_unlisted_policy :
("DoNotDelete" ∉ terminationPolicies) ∧
  Validate (Sample.options "mycluster" "DoNotDelete" "component.yaml" "" false) = None.
Proof.
  split; [| reflexivity].
  unfold terminationPolicies. intros H.
  repeat (apply elem_of_cons in H as [H|H]; [discriminate H |]).
  by apply elem_of_nil in H.
Qed.

(** C1, amended: [Validate] returns an error whenever the termination policy
    is the empty string; for every non-empty policy, enumerated or not, the
    termination-policy check passes, so [Validate] then returns nil as soon
    as the name and the components locator are non-empty; this holds in
    particular for the four enumerated values. *)
Theorem Validate_terminationPolicy (o : CreateOptions) :
  (TerminationPolicy o = "" → Validate o ≠ None) ∧
  (TerminationPolicy o ≠ "" → Validate o ≠ Errorf terminationPolicy_needed) ∧
  (TerminationPolicy o ≠ "" → create.Name (BaseOptions o) ≠ "" →
   ComponentsFilePath o ≠ "" → Validate o = None) ∧
  (TerminationPolicy o ∈ terminationPolicies → TerminationPolicy o ≠ "").
Proof.
  repeat split.
  - intros Hp Hv. apply Validate_nil_iff in Hv. tauto.
  - intros Hp. unfold Validate.
    destruct (String.eqb_spec (create.Name (BaseOptions o)) ""); [discriminate |].
    destruct (String.eqb_spec (TerminationPolicy o) ""); [contradiction |].
    destruct (String.length (ComponentsFilePath o) =? 0)%nat; discriminate.
  - intros. by apply Validate_nil_iff.
  - unfold terminationPolicies. intros H Hp. rewrite Hp in H.
    repeat (apply elem_of_cons in H as [H|H]; [discriminate H |]).
    by apply elem_of_nil in H.
Qed.

(** The empty policy is refused and [Halt] is accepted on the sample request. *)
Lemma Validate_terminationPolicy_witness :
  Validate (Sample.options "mycluster" "" "component.yaml" "" false) ≠ None ∧
  Validate (Sample.options "mycluster" "Halt" "component.yaml" "" false) = None.
Proof.
  split.
  - apply (Validate_terminationPolicy
             (Sample.options "mycluster" "" "component.yaml" "" false)).
    reflexivity.
  - apply (Validate_terminationPolicy
             (Sample.options "mycluster" "Halt" "component.yaml" "" false));
      simpl; discriminate.
Defined.

(** ** The monitor overlay *)

Lemma setMonitor_range_cons (monitor : bool) (m : gmap string value)
  (cs : list GoMap) :
  setMonitor_range monitor (MapOf m :: cs)
  = cons (MapOf (<[monitorKey := VBool monitor]> m)) <$> setMonitor_range monitor cs.
Proof. simpl. by destruct (setMonitor_range monitor cs). Qed.

(** [setMonitor_range] returns exactly on the lists without a nil map, and
    then every map has received the monitor entry. *)
Lemma setMonitor_range_maps (monitor : bool) (ms : list (gmap string value)) :
  setMonitor_range monitor (MapOf <$> ms)
  = Done (MapOf ∘ insert monitorKey (VBool monitor) <$> ms).
Proof.
  induction ms as [|m ms IH]; [reflexivity |].
  rewrite !fmap_cons, setMonitor_range_cons, IH. reflexivity.
Qed.

Lemma setMonitor_range_Done (monitor : bool) (cs cs' : list GoMap) :
  setMonitor_range monitor cs = Done cs' →
  ∃ ms : list (gmap string value),
    cs = MapOf <$> ms ∧ cs' = (MapOf ∘ insert monitorKey (VBool monitor) <$> ms).
Proof.
  revert cs'. induction cs as [|c cs IH]; intros cs' H; simpl in H.
  - exists []. by inversion H.
  - destruct c as [|m]; simpl in H; [discriminate |].
    destruct (setMonitor_range monitor cs) as [rest|] eqn:E; simpl in H;
      [| discriminate].
    destruct (IH rest eq_refl) as (ms & -> & ->).
    exists (m :: ms). by inversion H.
Qed.

Lemma setMonitor_range_nil_map (monitor : bool) (cs : list GoMap) :
  MapNil ∈ cs → ∃ msg, setMonitor_range monitor cs = Panic msg.
Proof.
  induction cs as [|c cs IH]; intros H; [by apply elem_of_nil in H |].
  destruct c as [|m]; simpl; [eauto |].
  apply elem_of_cons in H as [H|H]; [discriminate |].
  destruct (IH H) as [msg ->]. simpl. eauto.
Qed.

(** C6, as stated, fails: on a list with a nil map among its entries (what
    a [null] item of the components document decodes to) the write
    panics. *)
Lemma setMonitor_nil_entry_panics :
  setMonitor true (SliceOf [MapOf Sample.c1; MapNil])
  = Panic "assignment to entry in nil map" ∧
  ¬ setMonitor_writes_all true [MapOf Sample.c1; MapNil].
Proof.
  split; [reflexivity |].
  intros (cs' & H & _). discriminate H.
Qed.

(** C6, amended: for every boolean, [setMonitor] is a no-op on the nil list,
    and on every list whose entries are maps (none is the nil map) it
    writes the monitor field of every component to that boolean,
    overwriting any prior value and nothing else. *)
Theorem setMonitor_writes_every_component (monitor : bool) :
  setMonitor monitor SliceNil = Done SliceNil ∧
  ∀ ms : list (gmap string value),
    setMonitor monitor (SliceOf (MapOf <$> ms))
    = Done (SliceOf (MapOf ∘ insert monitorKey (VBool monitor) <$> ms)) ∧
    setMonitor_writes_all monitor (MapOf <$> ms).
Proof.
  split; [reflexivity |]. intros ms.
  assert (E : setMonitor monitor (SliceOf (MapOf <$> ms))
              = Done (SliceOf (MapOf ∘ insert monitorKey (VBool monitor) <$> ms))).
  { unfold setMonitor. by rewrite setMonitor_range_maps. }
  split; [exact E |].
  eexists. split; [exact E |].
  apply Forall_fmap, Forall_forall. intros m _. simpl.
  by rewrite lookup_insert_eq.
Qed.

(** C7: [setMonitor] is idempotent: a second call with the same boolean
    leaves the list as the first call left it (and two calls in sequence
    behave as one); a call with [false] after a call with [true] leaves the
    monitor field false on every component. *)
Theorem setMonitor_idempotent (monitor : bool) (components : slice GoMap) :
  (setMonitor monitor components ≫= setMonitor monitor)
  = setMonitor monitor components ∧
  (∀ once, setMonitor monitor components = Done once →
           setMonitor monitor once = Done once) ∧
  (∀ enabled, setMonitor true components = Done enabled →
     ∃ cleared, setMonitor false enabled = Done cleared ∧
       length (slice_elems cleared) = length (slice_elems components) ∧
       Forall (fun c => map_index c monitorKey = VBool false)
         (slice_elems cleared)).
Proof.
  assert (Hre : ∀ b b' cs once, setMonitor b cs = Done once →
            ∃ ms : list (gmap string value),
              slice_elems cs = MapOf <$> ms ∧
              setMonitor b' once
              = Done (match cs with
                      | SliceNil => SliceNil
                      | SliceOf _ =>
                          SliceOf (MapOf ∘ insert monitorKey (VBool b') <$> ms)
                      end) ∧
              (b = b' → setMonitor b' once = Done once)).
  { intros b b' [|cs] once H; simpl in H.
    - inversion H; subst. by exists [].
    - destruct (setMonitor_range b cs) as [cs'|] eqn:E; [| discriminate].
      simpl in H. inversion H; subst. clear H.
      destruct (setMonitor_range_Done _ _ _ E) as (ms & -> & ->).
      exists ms. split; [reflexivity |].
      assert (E' : (MapOf ∘ insert monitorKey (VBool b) <$> ms : list GoMap)
                   = MapOf <$> (insert monitorKey (VBool b) <$> ms))
        by (by rewrite <- list_fmap_compose).
      simpl. rewrite E', setMonitor_range_maps. simpl.
      rewrite <- !list_fmap_compose.
      split.
      + do 2 f_equal. apply list_fmap_ext. intros _ m _. simpl.
        by rewrite insert_insert_eq.
      + intros <-. do 2 f_equal. apply list_fmap_ext. intros _ m _. simpl.
        by rewrite insert_insert_eq. }
  split; [| split].
  - destruct (setMonitor monitor components) as [once|msg] eqn:E; [| reflexivity].
    simpl. destruct (Hre monitor monitor _ _ E) as (_ & _ & _ & H). by apply H.
  - intros once E. destruct (Hre monitor monitor _ _ E) as (_ & _ & _ & H).
    by apply H.
  - intros enabled E. destruct (Hre true false _ _ E) as (ms & Hms & H & _).
    eexists. split; [exact H |].
    destruct components as [|cs]; simpl in *; [split; [reflexivity | constructor] |].
    subst cs. rewrite !length_fmap. split; [reflexivity |].
    apply Forall_fmap, Forall_forall. intros m _. simpl.
    by rewrite lookup_insert_eq.
Qed.

(** Clearing the flag of a component that had it set. *)
Lemma setMonitor_idempotent_witness :
  ∃ cleared, setMonitor false (SliceOf [MapOf (<[monitorKey := VBool true]> Sample.c1)])
             = Done cleared ∧
    length (slice_elems cleared) = 1 ∧
    Forall (fun c => map_index c monitorKey = VBool false) (slice_elems cleared).
Proof.
  apply (setMonitor_idempotent true (SliceOf [MapOf Sample.c1])).
  reflexivity.
Defined.

(** ** The backup overlay *)

Lemma unstructured_NestedString_not_found (obj : gmap string value)
  (fields : list string) :
  (unstructured.NestedString obj fields).1.2 = false →
  (unstructured.NestedString obj fields).1.1 = "".
Proof.
  unfold unstructured.NestedString.
  destruct (unstructured.NestedFieldNoCopy obj fields) as [[val found] err].
  destruct found, err, val; simpl; congruence.
Qed.

(** The descriptor built by the code is the one of the specification. *)
Lemma dataSource_of_descriptor (backup : string) :
  dataSource_of backup = descriptor backup.
Proof.
  unfold dataSource_of, descriptor, unstructured.SetNestedField,
    unstructured.DeepCopyJSONValue. simpl.
  apply map_eq. intros k.
  destruct (decide (k = "name")) as [->|]; [done |].
  destruct (decide (k = "kind")) as [->|]; [done |].
  destruct (decide (k = "apiGroup")) as [->|]; [done |].
  by simplify_map_eq.
Qed.

(** *** The loops on well-shaped and on ill-shaped components *)

Lemma setBackup_templates_shaped (dataSource : gmap string value)
  (templates : list value) :
  forallb is_map templates = true →
  setBackup_templates dataSource templates
  = Done (wire_template dataSource <$> templates).
Proof.
  induction templates as [|t templates IH]; [reflexivity |].
  simpl. intros [Ht Hts]%andb_prop.
  destruct t; try discriminate. simpl.
  destruct (unstructured.SetNestedField m (VMap dataSource) ["spec"] "dataSource")
    as [templateMap' err].
  by rewrite (IH Hts).
Qed.

Lemma setBackup_templates_unshaped (dataSource : gmap string value)
  (templates : list value) :
  forallb is_map templates = false →
  ∃ msg, setBackup_templates dataSource templates = Panic msg.
Proof.
  induction templates as [|t templates IH]; [discriminate |].
  simpl. intros H.
  destruct t; simpl; eauto.
  destruct (unstructured.SetNestedField m (VMap dataSource) ["spec"] "dataSource")
    as [templateMap' err].
  destruct (IH H) as [msg ->]. simpl. eauto.
Qed.

Lemma setBackup_component_shaped (dataSource : gmap string value)
  (component : GoMap) :
  carries_templates component = true →
  setBackup_component dataSource component
  = Done (wire_component dataSource component).
Proof.
  unfold carries_templates, setBackup_component, wire_component.
  destruct component as [|m]; [discriminate |]. simpl.
  destruct (m !! "volumeClaimTemplates") as [[]|]; try discriminate.
  simpl. intros H. by rewrite (setBackup_templates_shaped _ _ H).
Qed.

Lemma setBackup_component_unshaped (dataSource : gmap string value)
  (component : GoMap) :
  carries_templates component = false →
  ∃ msg, setBackup_component dataSource component = Panic msg.
Proof.
  unfold carries_templates, setBackup_component.
  destruct component as [|m]; simpl; [eauto |].
  destruct (m !! "volumeClaimTemplates") as [[]|]; simpl; eauto.
  intros H. destruct (setBackup_templates_unshaped dataSource _ H) as [msg ->].
  simpl. eauto.
Qed.

Lemma setBackup_range_shaped (dataSource : gmap string value)
  (components : list GoMap) :
  forallb carries_templates components = true →
  setBackup_range dataSource components
  = Done (wire_component dataSource <$> components).
Proof.
  induction components as [|c cs IH]; [reflexivity |].
  simpl. intros [Hc Hcs]%andb_prop.
  by rewrite (setBackup_component_shaped _ _ Hc), (IH Hcs).
Qed.

Lemma setBackup_range_unshaped (dataSource : gmap string value)
  (components : list GoMap) :
  forallb carries_templates components = false →
  ∃ msg, setBackup_range dataSource components = Panic msg.
Proof.
  induction components as [|c cs IH]; [discriminate |].
  simpl. intros H.
  destruct (carries_templates c) eqn:Hc.
  - rewrite (setBackup_component_shaped _ _ Hc). simpl.
    destruct (IH H) as [msg ->]. simpl. eauto.
  - destruct (setBackup_component_unshaped dataSource _ Hc) as [msg ->].
    simpl. eauto.
Qed.

(** *** Reading back what was written *)

Lemma wire_template_settable (dataSource : gmap string value) (t : value) :
  spec_settable t = true →
  ∃ templateMap,
    wire_template dataSource t = VMap templateMap ∧
    unstructured.NestedFieldNoCopy templateMap ["spec"; "dataSource"]
    = (VMap dataSource, true, None).
Proof.
  destruct t as [| | | | | |m]; try discriminate. simpl.
  unfold unstructured.SetNestedField, unstructured.DeepCopyJSONValue,
    unstructured.NestedFieldNoCopy. simpl.
  destruct (m !! "spec") as [[| | | | | |spec]|] eqn:E; try discriminate; intros _.
  - eexists. split; [reflexivity |]. simpl.
    by rewrite !lookup_insert_eq.
  - eexists. split; [reflexivity |]. simpl.
    by rewrite !lookup_insert_eq.
Qed.

Lemma settable_carries (component : GoMap) :
  templates_settable component = true → carries_templates component = true.
Proof.
  unfold templates_settable, carries_templates.
  destruct (map_index component "volumeClaimTemplates"); try discriminate.
  induction l as [|t l IH]; [reflexivity |]. simpl.
  intros [Ht Hl]%andb_prop. rewrite (IH Hl), andb_true_r.
  by destruct t.
Qed.

Lemma wire_component_wired (backup : string) (component : GoMap) :
  templates_settable component = true →
  wired backup (wire_component (dataSource_of backup) component).
Proof.
  unfold templates_settable, wired, wire_component.
  destruct component as [|m]; [discriminate |]. simpl.
  destruct (m !! "volumeClaimTemplates") as [[| | | | |templates|]|];
    try discriminate. simpl.
  intros H. eexists. rewrite lookup_insert_eq. split; [reflexivity |].
  apply Forall_fmap, Forall_forall. intros t Ht. simpl.
  rewrite <- (dataSource_of_descriptor backup).
  apply wire_template_settable.
  rewrite forallb_forall in H. apply H. by apply list_elem_of_In.
Qed.

Section BackupOverlay.
Variable T : types.Constants.

(** With an empty reference or a nil list, nothing is looked up and
    nothing changes. *)
Lemma setBackup_guard (o : CreateOptions) (components : slice GoMap) (w : World) :
  Backup o = "" ∨ components = SliceNil →
  setBackup T o components w = Done ((components, None), w).
Proof.
  unfold setBackup. intros [H | ->].
  - rewrite H. reflexivity.
  - by destruct (String.length (Backup o) =? 0)%nat.
Qed.

(** Past the guards, the outcome is decided by the type of the job. *)
Lemma setBackup_resolved (o : CreateOptions) (job : Unstructured)
  (cs : list GoMap) (w : World) :
  resolves T o job →
  setBackup T o (SliceOf cs) w =
    if negb (String.eqb (backupType_of job) "snapshot") then
      Done ((SliceOf cs, Errorf (only_snapshot (backupType_of job))),
            after w [backup_lookup T o])
    else
      match setBackup_range (dataSource_of (Backup o)) cs with
      | Done cs' => Done ((SliceOf cs', None), after w [backup_lookup T o])
      | Panic msg => Panic msg
      end.
Proof.
  intros [Hb Hjob]. unfold setBackup, backupType_of, backup_lookup.
  assert ((String.length (Backup o) =? 0)%nat = false) as ->
    by (by destruct (Backup o)).
  unfold dynamic.Get, mbind, M_bind, emit, mret, M_ret, lift.
  rewrite Hjob.
  destruct (unstructured.NestedString (Object job) ["spec"; "backupType"])
    as [[backupType found] err]. simpl.
  destruct (negb (String.eqb backupType "snapshot")); [reflexivity |].
  by destruct (setBackup_range _ cs).
Qed.

Lemma setBackup_type_mismatch (o : CreateOptions) (job : Unstructured)
  (cs : list GoMap) (w : World) :
  resolves T o job →
  backupType_of job ≠ "snapshot" →
  setBackup T o (SliceOf cs) w
  = Done ((SliceOf cs, Errorf (only_snapshot (backupType_of job))),
          after w [backup_lookup T o]).
Proof.
  intros Hres Hty. rewrite (setBackup_resolved o job cs w Hres).
  by destruct (String.eqb_spec (backupType_of job) "snapshot").
Qed.

(** A failed lookup is returned as it is. *)
Lemma setBackup_lookup_failed (o : CreateOptions) (err : string)
  (cs : list GoMap) (w : World) :
  Backup o ≠ "" →
  dynamic.answer (create.Client (BaseOptions o))
    {| schema.Group := types.DPGroup T; schema.Version := types.DPVersion T;
       schema.Resource := types.ResourceBackupJobs T |}
    (create.Namespace (BaseOptions o)) (Backup o) = inr err →
  setBackup T o (SliceOf cs) w
  = Done ((SliceOf cs, Some err), after w [backup_lookup T o]).
Proof.
  intros Hb Hans. unfold setBackup, backup_lookup.
  assert ((String.length (Backup o) =? 0)%nat = false) as ->
    by (by destruct (Backup o)).
  unfold dynamic.Get, mbind, M_bind, emit, mret, M_ret.
  by rewrite Hans.
Qed.

(** C2, amended: for every non-nil component list and every non-empty backup
    reference whose backup job is fetched and declares a type other than
    "snapshot", [setBackup] returns the error naming the type found and
    leaves the component list unchanged, after one lookup. *)
Theorem setBackup_rejects_other_types (o : CreateOptions) (job : Unstructured)
  (cs : list GoMap) (w : World) :
  resolves T o job →
  backupType_of job ≠ "snapshot" →
  setBackup T o (SliceOf cs) w
  = Done ((SliceOf cs, Errorf (only_snapshot (backupType_of job))),
          after w [backup_lookup T o]).
Proof.
  intros Hres Hty. rewrite (setBackup_resolved o job cs w Hres).
  destruct (String.eqb_spec (backupType_of job) "snapshot") as [Heq|_];
    [contradiction | reflexivity].
Qed.

(** C10: when the backup job fetched has no string at [spec.backupType],
    [setBackup] takes the type to be the empty string and rejects the
    request with the message naming '' as the type found, leaving every
    component as it was; whatever the component list, such a job never has
    the list changed: a missing type never counts as "snapshot". *)
Theorem setBackup_missing_type (o : CreateOptions) (job : Unstructured)
  (w : World) :
  resolves T o job →
  (unstructured.NestedString (Object job) ["spec"; "backupType"]).1.2 = false →
  backupType_of job = "" ∧
  (∀ cs, setBackup T o (SliceOf cs) w
         = Done ((SliceOf cs,
                  Errorf "only support snapshot backup, specified backup type is ''"),
                 after w [backup_lookup T o])) ∧
  (∀ components, ∃ err w',
     setBackup T o components w = Done ((components, err), w')).
Proof.
  intros Hres Hfound.
  assert (Hty : backupType_of job = "")
    by (by apply unstructured_NestedString_not_found).
  assert (Hcs : ∀ cs, setBackup T o (SliceOf cs) w
            = Done ((SliceOf cs,
                     Errorf "only support snapshot backup, specified backup type is ''"),
                    after w [backup_lookup T o])).
  { intros cs. rewrite (setBackup_resolved o job cs w Hres), Hty. reflexivity. }
  split; [exact Hty | split; [exact Hcs |]].
  intros [|cs].
  - rewrite setBackup_guard by auto. eauto.
  - rewrite Hcs. eauto.
Qed.

Lemma setBackup_snapshot (o : CreateOptions) (job : Unstructured)
  (cs : list GoMap) (w : World) :
  resolves T o job →
  backupType_of job = "snapshot" →
  forallb carries_templates cs = true →
  setBackup T o (SliceOf cs) w
  = Done ((SliceOf (wire_component (dataSource_of (Backup o)) <$> cs), None),
          after w [backup_lookup T o]).
Proof.
  intros Hres Hty Hcs. rewrite (setBackup_resolved o job cs w Hres), Hty.
  simpl. by rewrite (setBackup_range_shaped _ _ Hcs).
Qed.

(** C9: the type assertions of [setBackup] are unchecked.  When every
    component of the list carries a [volumeClaimTemplates] field shaped as a
    list of maps, no assertion fails and [setBackup] returns; when the loop
    is reached and some component lacks the field or has it in another
    shape, the call panics instead of returning an error. *)
Theorem setBackup_assertions (o : CreateOptions) (w : World) :
  (∀ components,
     forallb carries_templates (slice_elems components) = true →
     ∃ components' err w',
       setBackup T o components w = Done ((components', err), w')) ∧
  (∀ job cs,
     resolves T o job →
     backupType_of job = "snapshot" →
     forallb carries_templates cs = false →
     ∃ msg, setBackup T o (SliceOf cs) w = Panic msg).
Proof.
  split.
  - intros components Hcs.
    destruct (decide (Backup o = "")) as [Hb|Hb];
      [rewrite setBackup_guard by auto; eauto |].
    destruct components as [|cs];
      [rewrite setBackup_guard by auto; eauto |].
    simpl in Hcs.
    destruct (dynamic.answer (create.Client (BaseOptions o))
                {| schema.Group := types.DPGroup T;
                   schema.Version := types.DPVersion T;
                   schema.Resource := types.ResourceBackupJobs T |}
                (create.Namespace (BaseOptions o)) (Backup o))
      as [job|err] eqn:Hans.
    + destruct (String.eqb_spec (backupType_of job) "snapshot") as [Hty|Hty].
      * rewrite (setBackup_snapshot o job cs w (conj Hb Hans) Hty Hcs). eauto.
      * rewrite (setBackup_type_mismatch o job cs w (conj Hb Hans) Hty). eauto.
    + rewrite (setBackup_lookup_failed o err cs w Hb Hans). eauto.
  - intros job cs Hres Hty Hcs.
    rewrite (setBackup_resolved o job cs w Hres), Hty. simpl.
    destruct (setBackup_range_unshaped (dataSource_of (Backup o)) cs Hcs)
      as [msg ->]. eauto.
Qed.

End BackupOverlay.

(** C2, as stated, fails: with a nil component list, a reference to a backup
    of type "full" is accepted without an error (and without a lookup). *)
Lemma setBackup_nil_list_accepts_full_backup :
  let o := Sample.options "mycluster" "Halt" "component.yaml" "snap1" false in
  dynamic.answer Sample.client
    {| schema.Group := types.DPGroup Sample.T;
       schema.Version := types.DPVersion Sample.T;
       schema.Resource := types.ResourceBackupJobs Sample.T |} "default" "snap1"
  = inl (Sample.backupJob (VString "full")) ∧
  backupType_of (Sample.backupJob (VString "full")) = "full" ∧
  setBackup Sample.T
    o SliceNil Sample.world
  = Done ((SliceNil, None), Sample.world).
Proof. repeat split. Qed.

(** Scenario 2 of the specification: [snap1] is a full backup. *)
Lemma setBackup_rejects_other_types_witness :
  setBackup Sample.T
    (Sample.options "mycluster" "Halt" "component.yaml" "snap1" false)
    (SliceOf [MapOf Sample.c1]) Sample.world
  = Done ((SliceOf [MapOf Sample.c1],
           Errorf "only support snapshot backup, specified backup type is 'full'"),
          after Sample.world
            [EvResourceGet
               {| schema.Group := "dataprotection.kubeblocks.io";
                  schema.Version := "v1alpha1";
                  schema.Resource := "backupjobs" |}
               "default" "snap1"]).
Proof.
  apply (setBackup_rejects_other_types Sample.T
           (Sample.options "mycluster" "Halt" "component.yaml" "snap1" false)
           (Sample.backupJob (VString "full"))).
  - split; [discriminate | reflexivity].
  - discriminate.
Defined.

(** The backup job [snap3] declares no type. *)
Lemma setBackup_missing_type_witness :
  backupType_of {| Object := {[ "spec" := VMap ∅ ]} |} = "" ∧
  setBackup Sample.T
    (Sample.options "mycluster" "Halt" "component.yaml" "snap3" false)
    (SliceOf [MapOf Sample.c1]) Sample.world
  = Done ((SliceOf [MapOf Sample.c1],
           Errorf "only support snapshot backup, specified backup type is ''"),
          after Sample.world
            [backup_lookup Sample.T
               (Sample.options "mycluster" "Halt" "component.yaml" "snap3" false)]).
Proof.
  destruct (setBackup_missing_type Sample.T
              (Sample.options "mycluster" "Halt" "component.yaml" "snap3" false)
              {| Object := {[ "spec" := VMap ∅ ]} |} Sample.world)
    as (Hty & Hcs & _).
  - split; [discriminate | reflexivity].
  - reflexivity.
  - split; [exact Hty | apply Hcs].
Defined.

(** C3, as stated, fails: a component whose template is a map with a [spec]
    that is not a map satisfies the precondition; [setBackup] returns
    without an error and the template has no [spec.dataSource]. *)
Lemma setBackup_skips_template_with_scalar_spec :
  let o := Sample.options "mycluster" "Halt" "component.yaml" "snap2" false in
  carries_templates (MapOf Sample.c2) = true ∧
  resolves Sample.T o
    (Sample.backupJob (VString "snapshot")) ∧
  backupType_of (Sample.backupJob (VString "snapshot")) = "snapshot" ∧
  setBackup Sample.T
    o (SliceOf [MapOf Sample.c2]) Sample.world
  = Done ((SliceOf [MapOf Sample.c2], None),
          after Sample.world
            [backup_lookup Sample.T o]) ∧
  ¬ wired "snap2" (MapOf Sample.c2).
Proof.
  repeat split; [discriminate |].
  intros (templates & Hts & Hall).
  vm_compute in Hts. injection Hts as <-.
  apply Forall_cons in Hall as [(templateMap & Ht & Hread) _].
  injection Ht as <-. vm_compute in Hread. discriminate Hread.
Qed.

(** A well-shaped list returns; a list with a component that has no
    [volumeClaimTemplates] panics. *)
Lemma setBackup_assertions_witness :
  (∃ components' err w',
     setBackup Sample.T
       (Sample.options "mycluster" "Halt" "component.yaml" "snap2" false)
       (SliceOf [MapOf Sample.c1]) Sample.world
     = Done ((components', err), w')) ∧
  (∃ msg,
     setBackup Sample.T
       (Sample.options "mycluster" "Halt" "component.yaml" "snap2" false)
       (SliceOf [MapOf Sample.c1; MapOf Sample.c3]) Sample.world
     = Panic msg).
Proof.
  split.
  - apply (setBackup_assertions Sample.T). reflexivity.
  - apply (proj2 (setBackup_assertions Sample.T
                      (Sample.options "mycluster" "Halt" "component.yaml" "snap2" false)
                      Sample.world) (Sample.backupJob (VString "snapshot"))).
    + split; [discriminate | reflexivity].
    + reflexivity.
    + reflexivity.
Defined.

(** ** Log enablement *)

Section LogEnablement.
Variable EqualFold : string → string → bool.

(** [typeList] ends up as the names of the log configurations, in order. *)
Lemma typeList_of_names (com : ClusterDefinitionComponent.t) :
  typeList_of com = LogConfig.Name <$> ClusterDefinitionComponent.LogConfigs com.
Proof.
  unfold typeList_of.
  assert (H : ∀ (logConfs : list LogConfig.t) (acc : list string),
            fold_left (fun (typeList : list string) logConf =>
                         (typeList ++ [LogConfig.Name logConf])%list) logConfs acc
            = (acc ++ (LogConfig.Name <$> logConfs))%list).
  { induction logConfs as [|logConf logConfs IH]; intros acc; simpl.
    - by rewrite app_nil_r.
    - by rewrite IH, <- app_assoc. }
  apply H.
Qed.

Lemma set_EnabledLogs_same (component : ClusterComponent.t) :
  ClusterComponent.set_EnabledLogs (ClusterComponent.EnabledLogs component) component
  = component.
Proof. by destruct component. Qed.

Lemma expected_EnabledLogs_cons (com : ClusterDefinitionComponent.t)
  (coms : list ClusterDefinitionComponent.t) (component : ClusterComponent.t) :
  expected_EnabledLogs EqualFold (com :: coms) component =
    if EqualFold (ClusterComponent.Type_ component)
         (ClusterDefinitionComponent.TypeName com)
    then expected_EnabledLogs EqualFold coms
           (ClusterComponent.set_EnabledLogs (typeList_of com) component)
    else expected_EnabledLogs EqualFold coms component.
Proof.
  unfold expected_EnabledLogs, matching_definitions.
  rewrite filter_cons. case_decide as E.
  - rewrite E, last_cons. simpl.
    destruct (last _); [reflexivity |]. by rewrite typeList_of_names.
  - apply not_true_is_false in E. by rewrite E.
Qed.

(** The inner loop leaves, at [idx], the component with the enabled logs the
    specification expects, when [comCluster] has the type of that
    component. *)
Lemma setEnableAllLogs_definitions_alter (idx : nat)
  (comCluster : ClusterComponent.t) (coms : list ClusterDefinitionComponent.t)
  (components : list ClusterComponent.t) :
  setEnableAllLogs_definitions EqualFold idx comCluster coms components
  = alter (fun component =>
             ClusterComponent.set_EnabledLogs
               (expected_EnabledLogs EqualFold coms
                  (ClusterComponent.set_EnabledLogs
                     (ClusterComponent.EnabledLogs component) comCluster))
               component) idx components.
Proof.
  revert components. induction coms as [|com coms IH]; intros components; simpl.
  - symmetry. apply list_alter_id. intros component.
    unfold expected_EnabledLogs. simpl. apply set_EnabledLogs_same.
  - destruct (EqualFold (ClusterComponent.Type_ comCluster)
                (ClusterDefinitionComponent.TypeName com)) eqn:E; simpl.
    + rewrite IH, list_alter_alter_eq.
      apply list_alter_ext; [| reflexivity]. intros component _.
      rewrite (expected_EnabledLogs_cons com coms). simpl. by rewrite E.
    + rewrite IH.
      apply list_alter_ext; [| reflexivity]. intros component _.
      rewrite (expected_EnabledLogs_cons com coms). simpl. by rewrite E.
Qed.

(** The outer loop, having left [visited] behind and with [todo] ahead. *)
Lemma setEnableAllLogs_range_app (coms : list ClusterDefinitionComponent.t)
  (todo visited : list ClusterComponent.t) :
  setEnableAllLogs_range EqualFold (seq (length visited) (length todo)) coms
    (visited ++ todo)%list
  = (visited ++ ((fun component =>
                    ClusterComponent.set_EnabledLogs
                      (expected_EnabledLogs EqualFold coms component) component) <$> todo))%list.
Proof.
  revert visited. induction todo as [|comCluster todo IH]; intros visited;
    [reflexivity |].
  simpl. rewrite list_lookup_middle by reflexivity.
  rewrite setEnableAllLogs_definitions_alter.
  replace (length visited) with (length visited + 0) at 2 by lia.
  rewrite alter_app_r. simpl.
  rewrite set_EnabledLogs_same.
  rewrite (cons_middle _ visited todo), app_assoc.
  replace (S (length visited)) with
    (length (visited ++ [ClusterComponent.set_EnabledLogs
                           (expected_EnabledLogs EqualFold coms comCluster) comCluster])%list)
    by (rewrite length_app; simpl; lia).
  rewrite IH. by rewrite <- app_assoc.
Qed.

(** What [expected_EnabledLogs] amounts to: without a matching entry the
    component's own logs; with matching entries, the names declared by the
    last of them, which is the only one when type names are unique up to
    case. *)
Lemma expected_EnabledLogs_no_match (coms : list ClusterDefinitionComponent.t)
  (component : ClusterComponent.t) :
  Forall (fun com => EqualFold (ClusterComponent.Type_ component)
                       (ClusterDefinitionComponent.TypeName com) = false) coms →
  expected_EnabledLogs EqualFold coms component = ClusterComponent.EnabledLogs component.
Proof.
  induction 1 as [|com coms Hcom _ IH]; [reflexivity |].
  by rewrite expected_EnabledLogs_cons, Hcom.
Qed.

Lemma expected_EnabledLogs_match (coms : list ClusterDefinitionComponent.t)
  (component : ClusterComponent.t) :
  Exists (fun com => EqualFold (ClusterComponent.Type_ component)
                       (ClusterDefinitionComponent.TypeName com) = true) coms →
  ∃ com, com ∈ coms ∧
         EqualFold (ClusterComponent.Type_ component)
           (ClusterDefinitionComponent.TypeName com) = true ∧
         expected_EnabledLogs EqualFold coms component
         = LogConfig.Name <$> ClusterDefinitionComponent.LogConfigs com.
Proof.
  intros (com0 & Hin & Hm)%Exists_exists.
  unfold expected_EnabledLogs.
  destruct (last (matching_definitions EqualFold (ClusterComponent.Type_ component) coms))
    as [com|] eqn:E.
  - exists com. apply last_Some_elem_of in E.
    apply list_elem_of_filter in E as [? ?]. done.
  - apply last_None in E.
    assert (com0 ∈ matching_definitions EqualFold (ClusterComponent.Type_ component) coms)
      as Hin' by (by apply list_elem_of_filter).
    rewrite E in Hin'. by apply elem_of_nil in Hin'.
Qed.

Lemma expected_EnabledLogs_unique (coms1 coms2 : list ClusterDefinitionComponent.t)
  (com : ClusterDefinitionComponent.t) (component : ClusterComponent.t) :
  EqualFold (ClusterComponent.Type_ component)
    (ClusterDefinitionComponent.TypeName com) = true →
  Forall (fun com' => EqualFold (ClusterComponent.Type_ component)
                        (ClusterDefinitionComponent.TypeName com') = false)
    (coms1 ++ coms2)%list →
  expected_EnabledLogs EqualFold (coms1 ++ com :: coms2)%list component
  = LogConfig.Name <$> ClusterDefinitionComponent.LogConfigs com.
Proof.
  intros Hm [H1 H2]%Forall_app.
  induction H1 as [|com1 coms1 Hcom1 _ IH]; simpl.
  - rewrite expected_EnabledLogs_cons, Hm.
    rewrite expected_EnabledLogs_no_match by done. simpl.
    apply typeList_of_names.
  - by rewrite expected_EnabledLogs_cons, Hcom1.
Qed.

(** With several matching entries, the last one decides. *)
Lemma expected_EnabledLogs_last (coms1 coms2 : list ClusterDefinitionComponent.t)
  (com : ClusterDefinitionComponent.t) (component : ClusterComponent.t) :
  EqualFold (ClusterComponent.Type_ component)
    (ClusterDefinitionComponent.TypeName com) = true →
  Forall (fun com' => EqualFold (ClusterComponent.Type_ component)
                        (ClusterDefinitionComponent.TypeName com') = false)
    coms2 →
  expected_EnabledLogs EqualFold (coms1 ++ com :: coms2)%list component
  = LogConfig.Name <$> ClusterDefinitionComponent.LogConfigs com.
Proof.
  intros Hm H2. revert component Hm H2.
  induction coms1 as [|com1 coms1 IH]; intros component Hm H2; simpl.
  - rewrite expected_EnabledLogs_cons, Hm.
    rewrite expected_EnabledLogs_no_match by done. simpl.
    apply typeList_of_names.
  - rewrite expected_EnabledLogs_cons.
    destruct (EqualFold (ClusterComponent.Type_ component)
                (ClusterDefinitionComponent.TypeName com1)).
    + by apply IH.
    + by apply IH.
Qed.

(** C4: [setEnableAllLogs] keeps the components of the cluster, one for one,
    with their name, type, monitor flag and templates, and the other fields
    of the cluster.  A component whose type matches, under [EqualFold], the
    type name of a definition entry has its [EnabledLogs] set to exactly the
    names of the log configurations of the matching entry, in their order
    (of the last matching entry, were there several); a component without a
    matching entry keeps its [EnabledLogs]. *)
Theorem setEnableAllLogs_overwrites_matching (c : Cluster.t)
  (cd : ClusterDefinition.t) :
  let coms := ClusterDefinitionSpec.Components (ClusterDefinition.Spec cd) in
  let matches (component : ClusterComponent.t) (com : ClusterDefinitionComponent.t) :=
    EqualFold (ClusterComponent.Type_ component)
      (ClusterDefinitionComponent.TypeName com) in
  let c' := setEnableAllLogs EqualFold c cd in
  ClusterSpec.ClusterDefRef (Cluster.Spec c')
  = ClusterSpec.ClusterDefRef (Cluster.Spec c) ∧
  ClusterSpec.AppVersionRef (Cluster.Spec c')
  = ClusterSpec.AppVersionRef (Cluster.Spec c) ∧
  ClusterSpec.TerminationPolicy (Cluster.Spec c')
  = ClusterSpec.TerminationPolicy (Cluster.Spec c) ∧
  length (ClusterSpec.Components (Cluster.Spec c'))
  = length (ClusterSpec.Components (Cluster.Spec c)) ∧
  ∀ idx component,
    ClusterSpec.Components (Cluster.Spec c) !! idx = Some component →
    ∃ component',
      ClusterSpec.Components (Cluster.Spec c') !! idx = Some component' ∧
      logs_frame component component' ∧
      (Forall (fun com => matches component com = false) coms →
       ClusterComponent.EnabledLogs component'
       = ClusterComponent.EnabledLogs component) ∧
      (Exists (fun com => matches component com = true) coms →
       ∃ com, com ∈ coms ∧ matches component com = true ∧
              ClusterComponent.EnabledLogs component'
              = LogConfig.Name <$> ClusterDefinitionComponent.LogConfigs com) ∧
      (∀ coms1 com coms2,
         coms = (coms1 ++ com :: coms2)%list →
         matches component com = true →
         Forall (fun com' => matches component com' = false) coms2 →
         ClusterComponent.EnabledLogs component'
         = LogConfig.Name <$> ClusterDefinitionComponent.LogConfigs com).
Proof.
  intros coms matches c'.
  assert (Hcomps :
    ClusterSpec.Components (Cluster.Spec c')
    = (fun component =>
         ClusterComponent.set_EnabledLogs
           (expected_EnabledLogs EqualFold coms component) component)
        <$> ClusterSpec.Components (Cluster.Spec c)).
  { subst c'. unfold setEnableAllLogs. simpl.
    apply (setEnableAllLogs_range_app coms
             (ClusterSpec.Components (Cluster.Spec c)) []). }
  repeat split.
  - by rewrite Hcomps, length_fmap.
  - intros idx component Hidx. eexists. split.
    + rewrite Hcomps, list_lookup_fmap, Hidx. reflexivity.
    + simpl. split; [by repeat split |]. split; [| split].
      * apply expected_EnabledLogs_no_match.
      * apply expected_EnabledLogs_match.
      * intros coms1 com coms2 Hcoms Hm Hafter. subst coms. rewrite Hcoms.
        by apply expected_EnabledLogs_last.
Qed.

End LogEnablement.

(** Scenario 5 of the specification: type [t1] matches the entry [T1], and
    a component of an unknown type keeps its logs. *)
Example setEnableAllLogs_scenario :
  ClusterSpec.Components
    (Cluster.Spec
       (setEnableAllLogs Sample.EqualFold
          (Sample.cluster [Sample.component "c1" "t1" [];
                           Sample.component "c2" "other" ["audit"]])
          Sample.definition))
  = [Sample.component "c1" "t1" ["error"; "slow"];
     Sample.component "c2" "other" ["audit"]].
Proof. reflexivity. Qed.

(** Scenario 5 through the theorem: the component of type [t1] receives
    the logs of the entry [T1]; the component of type [other] keeps its
    own. *)
Lemma setEnableAllLogs_overwrites_matching_witness :
  let c' :=
    setEnableAllLogs Sample.EqualFold
      (Sample.cluster [Sample.component "c1" "t1" [];
                       Sample.component "c2" "other" ["audit"]])
      Sample.definition in
  (∃ component',
     ClusterSpec.Components (Cluster.Spec c') !! 0 = Some component' ∧
     ClusterComponent.Name component' = "c1" ∧
     ClusterComponent.EnabledLogs component' = ["error"; "slow"]) ∧
  (∃ component',
     ClusterSpec.Components (Cluster.Spec c') !! 1 = Some component' ∧
     ClusterComponent.Name component' = "c2" ∧
     ClusterComponent.EnabledLogs component' = ["audit"]).
Proof.
  pose proof (setEnableAllLogs_overwrites_matching Sample.EqualFold
                (Sample.cluster [Sample.component "c1" "t1" [];
                                 Sample.component "c2" "other" ["audit"]])
                Sample.definition) as (_ & _ & _ & _ & H).
  split.
  - destruct (H 0 (Sample.component "c1" "t1" []) eq_refl)
      as (component' & Hidx & (Hname & _) & _ & _ & Hlast).
    exists component'. split; [exact Hidx |]. split; [exact Hname |].
    apply (Hlast [Sample.proxy_entry] Sample.t1_entry []);
      [reflexivity | reflexivity | constructor].
  - destruct (H 1 (Sample.component "c2" "other" ["audit"]) eq_refl)
      as (component' & Hidx & (Hname & _) & Hnone & _).
    exists component'. split; [exact Hidx |]. split; [exact Hname |].
    apply Hnone. repeat constructor.
Defined.

(** ** The pre-submit stage *)

Section PreSubmitStage.
Variable EqualFold : string → string → bool.
Variable T : types.Constants.
Variable converter : runtime.UnstructuredConverter.

(** C5: when [EnableAllLogs] is false, [PreCreate] returns no error and
    leaves the document as it was, whatever it holds; the world is the same
    after the call, so that nothing was looked up. *)
Theorem PreCreate_disabled (o : CreateOptions) (obj : Unstructured) (w : World) :
  EnableAllLogs o = false →
  PreCreate EqualFold T converter o obj w = Done ((obj, None), w) ∧
  ∀ obj' err w', PreCreate EqualFold T converter o obj w = Done ((obj', err), w') →
                 obj' = obj ∧ err = None ∧ trace w' = trace w.
Proof.
  intros Hlogs.
  assert (E : PreCreate EqualFold T converter o obj w = Done ((obj, None), w)).
  { unfold PreCreate. rewrite Hlogs. reflexivity. }
  split; [exact E |].
  intros obj' err w' H. rewrite E in H. by inversion H.
Qed.

(** With [EnableAllLogs] set, the cluster definition is looked up once the
    document converts. *)
Lemma PreCreate_enabled_lookup (o : CreateOptions) (obj : Unstructured)
  (w : World) (c : Cluster.t) :
  EnableAllLogs o = true →
  runtime.FromUnstructured_Cluster converter (Object obj) = inl c →
  ∃ r, PreCreate EqualFold T converter o obj w
       = Done (r, after w [EvResourceGet (types.ClusterDefGVR T) ""
                             (ClusterSpec.ClusterDefRef (Cluster.Spec c))]).
Proof.
  intros Hlogs Hc. unfold PreCreate. rewrite Hlogs, Hc. simpl.
  unfold dynamic.Get, mbind, M_bind, emit, mret, M_ret.
  destruct (dynamic.answer _ _ _ _) as [res|err]; [| eauto].
  destruct (runtime.FromUnstructured_ClusterDefinition converter (Object res))
    as [cd|err]; [| eauto].
  destruct (runtime.ToUnstructured converter _) as [data|e]; eauto.
Qed.

End PreSubmitStage.

(** The sample request does not enable all logs. *)
Lemma PreCreate_disabled_witness :
  PreCreate Sample.EqualFold Sample.T Sample.converter
    (Sample.options "mycluster" "Halt" "component.yaml" "" false)
    {| Object := Sample.c1 |} Sample.world
  = Done (({| Object := Sample.c1 |}, None), Sample.world).
Proof.
  apply (PreCreate_disabled Sample.EqualFold Sample.T Sample.converter
           (Sample.options "mycluster" "Halt" "component.yaml" "" false)).
  reflexivity.
Defined.

(** ** Loading the components *)

Lemma ReadAll_loop_delivered (b : list byte) (r : Reader) :
  ReadAll_loop b r = (SliceOf (b ++ delivered r), failure r).
Proof.
  revert b. induction r as [|p next IH|err]; intros b; simpl.
  - by rewrite app_nil_r.
  - by rewrite IH, app_assoc.
  - by rewrite app_nil_r.
Qed.

(** [io.ReadAll] returns everything the reader delivered, with the error
    the reader ended on. *)
Lemma ReadAll_delivered (r : Reader) :
  ReadAll r = (SliceOf (delivered r), failure r).
Proof. apply ReadAll_loop_delivered. Qed.

Lemma Index_from_unfold (i : Z) (s substr : string) :
  Index_from i s substr =
    if String.prefix substr s then i
    else match s with
         | EmptyString => (-1)%Z
         | String _ s' => Index_from (i + 1)%Z s' substr
         end.
Proof. by destruct s. Qed.

(** [strings.Index] finds [substr] at [i], further on, or not at all. *)
Lemma Index_from_prefix (i : Z) (s substr : string) :
  (if String.prefix substr s
   then Index_from i s substr = i
   else Index_from i s substr = (-1)%Z ∨ (i < Index_from i s substr)%Z).
Proof.
  revert i. induction s as [|a s IH]; intros i.
  - rewrite Index_from_unfold. destruct (String.prefix substr ""); auto.
  - rewrite Index_from_unfold.
    destruct (String.prefix substr (String a s)); [reflexivity |].
    specialize (IH (i + 1)%Z).
    destruct (String.prefix substr s); lia.
Qed.

(** [strings.Index(s, substr) == 0] tests for a prefix. *)
Lemma Index_zero_prefix (s substr : string) :
  Z.eqb (Index s substr) 0 = String.prefix substr s.
Proof.
  unfold Index. pose proof (Index_from_prefix 0 s substr) as H.
  destruct (String.prefix substr s).
  - by rewrite H.
  - apply Z.eqb_neq. lia.
Qed.

Lemma after_after (w : World) (es es' : list Event) :
  after (after w es) es' = after w (es ++ es').
Proof. unfold after. simpl. by rewrite app_assoc. Qed.

(** C8, as stated, fails: when the stream breaks after delivering bytes,
    the error comes with the bytes read so far. *)
Lemma multipleSourceComponents_partial_read :
  failure Sample.broken_stdin = Some "read error" ∧
  multipleSourceComponents "-" {| genericclioptions.In := Sample.broken_stdin |}
    Sample.world
  = Done ((SliceOf ["a"%byte; "b"%byte], Some "read error"), Sample.world).
Proof. split; reflexivity. Qed.

(** C8, amended: [multipleSourceComponents] dispatches on the locator: "-"
    reads the input stream to its end; a locator with prefix "http://" or
    "https://" issues one GET and reads the whole body; any other locator
    is opened as a local file and read whole.  When opening or connecting
    fails it returns the error and no bytes; when a read fails it returns
    the error together with the bytes read before the failure. *)
Theorem multipleSourceComponents_sources (fileName : string)
  (streams : genericclioptions.IOStreams) (w : World) :
  let read (r : Reader) : slice byte * error := (SliceOf (delivered r), failure r) in
  multipleSourceComponents fileName streams w =
    if String.eqb fileName "-" then
      Done (read (genericclioptions.In streams), w)
    else if String.prefix "http://" fileName || String.prefix "https://" fileName then
      match http_server w fileName with
      | inl body =>
          Done (read body, after w [EvHttpGet fileName; EvCloseBody fileName])
      | inr err => Done ((SliceNil, Some err), after w [EvHttpGet fileName])
      end
    else
      match file_system w fileName with
      | inl data =>
          Done (read data, after w [EvOpen fileName; EvCloseFile fileName])
      | inr err => Done ((SliceNil, Some err), after w [EvOpen fileName])
      end.
Proof.
  intros read. unfold multipleSourceComponents.
  rewrite !Index_zero_prefix.
  destruct (String.eqb fileName "-"); [by rewrite ReadAll_delivered |].
  destruct (String.prefix "http://" fileName || String.prefix "https://" fileName).
  - unfold http_Get, mbind, M_bind, emit, mret, M_ret. simpl.
    destruct (http_server w fileName) as [body|err]; [| reflexivity].
    by rewrite after_after, ReadAll_delivered.
  - unfold os_Open, mbind, M_bind, emit, mret, M_ret. simpl.
    destruct (file_system w fileName) as [data|err]; [| reflexivity].
    by rewrite after_after, ReadAll_delivered.
Qed.

(** The three sources on the sample world. *)
Example multipleSourceComponents_url :
  multipleSourceComponents "http://kubeblocks.io/yamls/wesql_single.yaml"
    {| genericclioptions.In := EOF |} Sample.world
  = Done ((SliceOf ["-"%byte], None),
          after Sample.world
            [EvHttpGet "http://kubeblocks.io/yamls/wesql_single.yaml";
             EvCloseBody "http://kubeblocks.io/yamls/wesql_single.yaml"]).
Proof. reflexivity. Qed.

Example multipleSourceComponents_file :
  multipleSourceComponents "component.yaml"
    {| genericclioptions.In := EOF |} Sample.world
  = Done ((SliceOf ["["%byte; "]"%byte], None),
          after Sample.world [EvOpen "component.yaml"; EvCloseFile "component.yaml"]).
Proof. reflexivity. Qed.

Example multipleSourceComponents_missing_file :
  multipleSourceComponents "missing.yaml"
    {| genericclioptions.In := EOF |} Sample.world
  = Done ((SliceNil, Some "no such file"),
          after Sample.world [EvOpen "missing.yaml"]).
Proof. reflexivity. Qed.

(** * Further properties of create.go *)

(** ** Validation *)

(** X1: [Validate] reports the first check that fails, in the order name,
    termination policy, components locator, and returns nil exactly when
    all three are non-empty. *)
Theorem Validate_first_failure (o : CreateOptions) :
  (Validate o = Errorf "missing cluster name"
   ↔ create.Name (BaseOptions o) = "") ∧
  (Validate o = Errorf terminationPolicy_needed
   ↔ create.Name (BaseOptions o) ≠ "" ∧ TerminationPolicy o = "") ∧
  (Validate o = Errorf "a valid component local file path, URL, or stdin is needed"
   ↔ create.Name (BaseOptions o) ≠ "" ∧ TerminationPolicy o ≠ "" ∧
     ComponentsFilePath o = "") ∧
  (Validate o = None
   ↔ create.Name (BaseOptions o) ≠ "" ∧ TerminationPolicy o ≠ "" ∧
     ComponentsFilePath o ≠ "").
Proof.
  unfold Validate, Errorf.
  destruct (String.eqb_spec (create.Name (BaseOptions o)) "") as [Hn|Hn].
  { repeat split; try tauto; try discriminate; intros; tauto. }
  destruct (String.eqb_spec (TerminationPolicy o) "") as [Hp|Hp].
  { repeat split; try tauto; try discriminate; intros; tauto. }
  destruct (ComponentsFilePath o) as [|a path]; simpl.
  - repeat split; try tauto; try discriminate; intros; tauto.
  - repeat split; try tauto; try discriminate; intros; try tauto.
    all: try (destruct H as (_ & _ & H); discriminate H).
Qed.

(** ** The monitor overlay *)

(** X2: [setMonitor] panics exactly on the lists that hold a nil map; on
    every other list, the nil list included, it returns. *)
Theorem setMonitor_panics_iff_nil_entry (monitor : bool)
  (components : slice GoMap) :
  (∃ msg, setMonitor monitor components = Panic msg)
  ↔ MapNil ∈ slice_elems components.
Proof.
  split.
  - intros [msg H]. destruct components as [|cs]; [discriminate |]. simpl in *.
    destruct (setMonitor_range monitor cs) as [cs'|msg'] eqn:E; [discriminate |].
    clear H. revert msg' E. induction cs as [|c cs IH]; intros msg' E;
      [discriminate |].
    destruct c as [|m]; [apply elem_of_cons; by left |].
    rewrite setMonitor_range_cons in E.
    destruct (setMonitor_range monitor cs) as [rest|msg''] eqn:E';
      [discriminate |].
    apply elem_of_cons. right. by apply (IH msg'').
  - intros H. destruct components as [|cs]; [by apply elem_of_nil in H |].
    simpl in *. destruct (setMonitor_range_nil_map monitor cs H) as [msg ->].
    simpl. eauto.
Qed.

(** X3: when [setMonitor] returns, the list has the same length and the same
    nil-ness, and every component has the entries it had under every key
    but [monitor]. *)
Theorem setMonitor_frame (monitor : bool) (components components' : slice GoMap) :
  setMonitor monitor components = Done components' →
  (components' = SliceNil ↔ components = SliceNil) ∧
  Forall2 (fun c c' => ∃ m m', c = MapOf m ∧ c' = MapOf m' ∧
                               same_except monitorKey m m')
    (slice_elems components) (slice_elems components').
Proof.
  destruct components as [|cs]; simpl.
  - intros H. inversion H; subst. split; [done | constructor].
  - destruct (setMonitor_range monitor cs) as [cs'|] eqn:E; [| discriminate].
    simpl. intros H. inversion H; subst. clear H.
    split; [split; discriminate |].
    destruct (setMonitor_range_Done _ _ _ E) as (ms & -> & ->). simpl.
    apply Forall2_fmap, Forall2_same_length_lookup.
    split; [reflexivity |].
    intros i m m' Hm Hm'. rewrite Hm in Hm'. inversion Hm'; subst.
    exists m', (<[monitorKey := VBool monitor]> m').
    repeat split. intros k Hk. by rewrite lookup_insert_ne.
Qed.

(** A component with other fields keeps them when the flag is written. *)
Lemma setMonitor_frame_witness :
  (SliceOf [MapOf (<[monitorKey := VBool true]> Sample.c1)] = SliceNil
   ↔ SliceOf [MapOf Sample.c1] = SliceNil) ∧
  Forall2 (fun c c' => ∃ m m', c = MapOf m ∧ c' = MapOf m' ∧
                               same_except monitorKey m m')
    [MapOf Sample.c1] [MapOf (<[monitorKey := VBool true]> Sample.c1)].
Proof.
  apply (setMonitor_frame true (SliceOf [MapOf Sample.c1])
           (SliceOf [MapOf (<[monitorKey := VBool true]> Sample.c1)])).
  reflexivity.
Defined.

(** ** Nested writes and reads *)

Lemma setNestedFieldNoCopy_empty (val : value) (path : list string)
  (last : string) :
  (unstructured.setNestedFieldNoCopy ∅ val path last).2 = None.
Proof.
  induction path as [|field rest IH]; simpl; [reflexivity |].
  rewrite lookup_empty.
  destruct (unstructured.setNestedFieldNoCopy ∅ val rest last) as [newVal err].
  exact IH.
Qed.

(** X4: a nested write that succeeds is read back at the same path, found
    and without error; a nested write that fails leaves the object as it
    was. *)
Theorem SetNestedField_NestedFieldNoCopy (obj obj' : gmap string value)
  (val : value) (path : list string) (last : string) (err : error) :
  unstructured.SetNestedField obj val path last = (obj', err) →
  match err with
  | None => unstructured.NestedFieldNoCopy obj' (path ++ [last])%list
            = (val, true, None)
  | Some _ => obj' = obj
  end.
Proof.
  unfold unstructured.SetNestedField, unstructured.DeepCopyJSONValue,
    unstructured.NestedFieldNoCopy.
  revert obj obj' err. induction path as [|field rest IH]; intros obj obj' err H.
  - simpl in H. inversion H; subst. simpl. by rewrite lookup_insert_eq.
  - simpl in H.
    destruct (obj !! field) as [[| | | | | |valMap]|] eqn:E;
      try (inversion H; subst; reflexivity).
    + destruct (unstructured.setNestedFieldNoCopy valMap val rest last)
        as [valMap' err'] eqn:E'.
      inversion H; subst. specialize (IH _ _ _ E').
      destruct err as [e|]; simpl.
      * subst. by apply insert_id.
      * by rewrite lookup_insert_eq.
    + pose proof (setNestedFieldNoCopy_empty val rest last) as Hnone.
      destruct (unstructured.setNestedFieldNoCopy ∅ val rest last)
        as [newVal err'] eqn:E'.
      simpl in Hnone. subst err'. inversion H; subst.
      specialize (IH _ _ _ E'). simpl. by rewrite lookup_insert_eq.
Qed.

(** Writing the kind of a descriptor and reading it back. *)
Lemma SetNestedField_NestedFieldNoCopy_witness :
  unstructured.NestedFieldNoCopy
    (<["spec" := VMap {[ "dataSource" := VString "snap2" ]}]> Sample.c3)
    ["spec"; "dataSource"]
  = (VString "snap2", true, None).
Proof.
  apply (SetNestedField_NestedFieldNoCopy Sample.c3 _ (VString "snap2")
           ["spec"] "dataSource" None).
  reflexivity.
Defined.

(** A nested write done twice is the write done once. *)
Lemma setNestedFieldNoCopy_twice (val : value) (path : list string)
  (last : string) (obj : gmap string value) :
  (unstructured.setNestedFieldNoCopy
     (unstructured.setNestedFieldNoCopy obj val path last).1 val path last).1
  = (unstructured.setNestedFieldNoCopy obj val path last).1.
Proof.
  revert obj. induction path as [|field rest IH]; intros obj; simpl.
  - by rewrite insert_insert_eq.
  - destruct (obj !! field) as [[| | | | | |valMap]|] eqn:E; simpl;
      try (by rewrite E).
    + specialize (IH valMap).
      destruct (unstructured.setNestedFieldNoCopy valMap val rest last)
        as [valMap' err']. simpl in *. rewrite lookup_insert_eq.
      destruct (unstructured.setNestedFieldNoCopy valMap' val rest last)
        as [valMap'' err'']. simpl in *. subst. by rewrite insert_insert_eq.
    + specialize (IH ∅).
      destruct (unstructured.setNestedFieldNoCopy ∅ val rest last)
        as [newVal err']. simpl in *. rewrite lookup_insert_eq.
      destruct (unstructured.setNestedFieldNoCopy newVal val rest last)
        as [newVal' err'']. simpl in *. subst. by rewrite insert_insert_eq.
Qed.

(** ** More on the backup overlay *)

Lemma wire_template_twice (dataSource : gmap string value) (t : value) :
  wire_template dataSource (wire_template dataSource t)
  = wire_template dataSource t.
Proof.
  destruct t; try reflexivity. simpl.
  unfold unstructured.SetNestedField. by rewrite setNestedFieldNoCopy_twice.
Qed.

Lemma wire_template_is_map (dataSource : gmap string value) (t : value) :
  is_map (wire_template dataSource t) = is_map t.
Proof. by destruct t. Qed.

Lemma wire_component_twice (dataSource : gmap string value) (c : GoMap) :
  wire_component dataSource (wire_component dataSource c)
  = wire_component dataSource c.
Proof.
  destruct c as [|m]; [reflexivity |]. simpl.
  destruct (m !! "volumeClaimTemplates") as [[| | | | |templates|]|] eqn:E;
    simpl; rewrite ?E; try reflexivity.
  rewrite lookup_insert_eq, insert_insert_eq, <- list_fmap_compose.
  do 3 f_equal. apply list_fmap_ext. intros _ t _. simpl.
  apply wire_template_twice.
Qed.

Lemma wire_component_carries (dataSource : gmap string value) (c : GoMap) :
  carries_templates (wire_component dataSource c) = carries_templates c.
Proof.
  destruct c as [|m]; [reflexivity |]. unfold carries_templates. simpl.
  destruct (m !! "volumeClaimTemplates") as [[| | | | |templates|]|] eqn:E;
    simpl; rewrite ?E; try reflexivity.
  rewrite lookup_insert_eq. simpl. clear E.
  induction templates as [|t templates IH]; [reflexivity |].
  rewrite fmap_cons. cbn [forallb]. by rewrite wire_template_is_map, IH.
Qed.

Lemma setBackup_range_Done (dataSource : gmap string value)
  (cs cs' : list GoMap) :
  setBackup_range dataSource cs = Done cs' →
  forallb carries_templates cs = true ∧ cs' = wire_component dataSource <$> cs.
Proof.
  intros H. destruct (forallb carries_templates cs) eqn:E.
  - rewrite (setBackup_range_shaped _ _ E) in H. by inversion H.
  - destruct (setBackup_range_unshaped dataSource _ E) as [msg Hp].
    rewrite Hp in H. discriminate.
Qed.

Lemma wire_template_frame (dataSource : gmap string value) (t : value) :
  is_map t = true → template_frame t (wire_template dataSource t).
Proof.
  destruct t as [| | | | | |m]; try discriminate. intros _.
  unfold template_frame, wire_template, unstructured.SetNestedField,
    unstructured.DeepCopyJSONValue. simpl.
  destruct (m !! "spec") as [[| | | | | |spec]|] eqn:E; simpl;
    try (eexists _, _; repeat split; try done; by rewrite E).
  - eexists _, _. split; [reflexivity |]. split; [reflexivity |].
    rewrite E. split.
    + intros k Hk. by rewrite lookup_insert_ne.
    + eexists. rewrite lookup_insert_eq. split; [reflexivity |].
      intros k Hk. by rewrite lookup_insert_ne.
  - eexists _, _. split; [reflexivity |]. split; [reflexivity |].
    rewrite E. split; [| done].
    intros k Hk. by rewrite lookup_insert_ne.
Qed.

Lemma wire_component_frame (dataSource : gmap string value) (c : GoMap) :
  carries_templates c = true →
  component_frame c (wire_component dataSource c).
Proof.
  unfold carries_templates, component_frame, wire_component.
  destruct c as [|m]; [discriminate |]. simpl.
  destruct (m !! "volumeClaimTemplates") as [[| | | | |templates|]|] eqn:E;
    try discriminate. simpl. intros H.
  eexists _, _, _, _. repeat split; try reflexivity.
  - intros k Hk. by rewrite lookup_insert_ne.
  - exact E.
  - by rewrite lookup_insert_eq.
  - apply Forall2_fmap_r, Forall2_same_length_lookup.
    split; [reflexivity |]. intros i t t' Ht Ht'. rewrite Ht in Ht'.
    inversion Ht'; subst. apply wire_template_frame.
    rewrite forallb_forall in H. apply H, list_elem_of_In.
    by apply list_elem_of_lookup_2 in Ht.
Qed.

Lemma wire_component_insert_monitor (dataSource : gmap string value)
  (v : value) (m : gmap string value) :
  ∃ m', wire_component dataSource (MapOf m) = MapOf m' ∧
        wire_component dataSource (MapOf (<[monitorKey := v]> m))
        = MapOf (<[monitorKey := v]> m').
Proof.
  unfold wire_component. rewrite lookup_insert_ne by done.
  destruct (m !! "volumeClaimTemplates") as [[| | | | |templates|]|];
    try (eexists; split; reflexivity).
  eexists. split; [reflexivity |]. f_equal. by apply insert_insert_ne.
Qed.

Lemma carries_templates_insert_monitor (v : value) (m : gmap string value) :
  carries_templates (MapOf (<[monitorKey := v]> m)) = carries_templates (MapOf m).
Proof. unfold carries_templates. simpl. by rewrite lookup_insert_ne. Qed.

Lemma wire_component_monitor (dataSource : gmap string value) (c : GoMap) :
  map_index (wire_component dataSource c) monitorKey = map_index c monitorKey.
Proof.
  destruct c as [|m]; [reflexivity |]. simpl.
  destruct (m !! "volumeClaimTemplates") as [[| | | | |templates|]|];
    try reflexivity.
  simpl. by rewrite lookup_insert_ne.
Qed.

Section BackupOverlayMore.
Variable T : types.Constants.

(** The ways [setBackup] can go, whatever the world. *)
Lemma setBackup_outcomes (o : CreateOptions) (components : slice GoMap) :
  ((Backup o = "" ∨ components = SliceNil) ∧
   ∀ w, setBackup T o components w = Done ((components, None), w)) ∨
  (Backup o ≠ "" ∧ ∃ cs, components = SliceOf cs ∧
     ((∃ err, ∀ w, setBackup T o components w
                   = Done ((components, Some err), after w [backup_lookup T o])) ∨
      (∃ job, resolves T o job ∧ backupType_of job = "snapshot" ∧
         ∀ w, setBackup T o components w
              = match setBackup_range (dataSource_of (Backup o)) cs with
                | Done cs' =>
                    Done ((SliceOf cs', None), after w [backup_lookup T o])
                | Panic msg => Panic msg
                end))).
Proof.
  destruct (decide (Backup o = "")) as [Hb|Hb];
    [left; split; [auto | by intros w; apply setBackup_guard; auto] |].
  destruct components as [|cs];
    [left; split; [auto | by intros w; apply setBackup_guard; auto] |].
  right. split; [exact Hb |]. exists cs. split; [reflexivity |].
  destruct (dynamic.answer (create.Client (BaseOptions o))
              {| schema.Group := types.DPGroup T;
                 schema.Version := types.DPVersion T;
                 schema.Resource := types.ResourceBackupJobs T |}
              (create.Namespace (BaseOptions o)) (Backup o))
    as [job|err] eqn:Hans.
  - destruct (String.eqb_spec (backupType_of job) "snapshot") as [Hty|Hty].
    + right. exists job. split; [by split |]. split; [exact Hty |]. intros w.
      rewrite (setBackup_resolved T o job cs w (conj Hb Hans)), Hty.
      reflexivity.
    + left. eexists. intros w.
      apply (setBackup_type_mismatch T o job cs w (conj Hb Hans) Hty).
  - left. eexists. intros w. apply (setBackup_lookup_failed T o err cs w Hb Hans).
Qed.

(** X5: whenever [setBackup] returns an error, the component list is the
    one it was given: no component is changed on a failed lookup or on a
    rejected backup type. *)
Theorem setBackup_error_keeps_components (o : CreateOptions)
  (components components' : slice GoMap) (e : string) (w w' : World) :
  setBackup T o components w = Done ((components', Some e), w') →
  components' = components.
Proof.
  intros H.
  destruct (setBackup_outcomes o components)
    as [[_ E] | (_ & cs & -> & [[err E] | (job & _ & _ & E)])];
    rewrite E in H.
  - by inversion H.
  - by inversion H.
  - destruct (setBackup_range _ cs); [inversion H | discriminate].
Qed.

(** X6: [setBackup] makes no remote call when the reference is empty or the
    list is nil, and otherwise exactly one: the lookup of the backup job
    named by the reference, in the namespace of the request. *)
Theorem setBackup_one_lookup (o : CreateOptions)
  (components components' : slice GoMap) (err : error) (w w' : World) :
  setBackup T o components w = Done ((components', err), w') →
  (Backup o = "" ∨ components = SliceNil → w' = w) ∧
  (Backup o ≠ "" → components ≠ SliceNil → w' = after w [backup_lookup T o]).
Proof.
  intros H.
  destruct (setBackup_outcomes o components)
    as [[Hg E] | (Hb & cs & -> & [[e E] | (job & _ & _ & E)])];
    rewrite E in H.
  - inversion H; subst. split; [done |]. intros ? ?. by destruct Hg.
  - inversion H; subst. split; [intros [?|?]; done | done].
  - destruct (setBackup_range _ cs); [| discriminate].
    inversion H; subst. split; [intros [?|?]; done | done].
Qed.

(** X7: when [setBackup] wires a snapshot, it changes nothing but the
    templates: every component keeps its other fields and the number of its
    templates, every template keeps its fields other than [spec], a [spec]
    that is a map keeps its entries other than [dataSource], and a template
    whose [spec] is something else is left as it was. *)
Theorem setBackup_frame (o : CreateOptions) (job : Unstructured)
  (cs cs' : list GoMap) (err : error) (w w' : World) :
  resolves T o job →
  backupType_of job = "snapshot" →
  setBackup T o (SliceOf cs) w = Done ((SliceOf cs', err), w') →
  Forall2 component_frame cs cs'.
Proof.
  intros Hres Hty H.
  rewrite (setBackup_resolved T o job cs w Hres), Hty in H. simpl in H.
  destruct (setBackup_range (dataSource_of (Backup o)) cs) as [cs1|] eqn:E;
    [| discriminate].
  inversion H; subst. clear H.
  apply setBackup_range_Done in E as [Hcs ->].
  apply Forall2_fmap_r, Forall2_same_length_lookup.
  split; [reflexivity |]. intros i c c' Hc Hc'. rewrite Hc in Hc'.
  inversion Hc'; subst. apply wire_component_frame.
  rewrite forallb_forall in Hcs. apply Hcs, list_elem_of_In.
  by apply list_elem_of_lookup_2 in Hc.
Qed.

(** X8: [setBackup] can be run again: on the list it returned, in the world
    it left, it returns the same list and the same error. *)
Theorem setBackup_again (o : CreateOptions)
  (components components' : slice GoMap) (err : error) (w w' : World) :
  setBackup T o components w = Done ((components', err), w') →
  ∃ w'', setBackup T o components' w' = Done ((components', err), w'').
Proof.
  intros H.
  destruct (setBackup_outcomes o components)
    as [[Hg E] | (Hb & cs & -> & [[e E] | (job & Hres & Hty & E)])];
    rewrite E in H.
  - inversion H; subst. rewrite E. eauto.
  - inversion H; subst. rewrite E. eauto.
  - destruct (setBackup_range (dataSource_of (Backup o)) cs) as [cs1|] eqn:Er;
      [| discriminate].
    inversion H; subst. clear H.
    apply setBackup_range_Done in Er as [Hcs ->].
    rewrite (setBackup_snapshot T o job _ (after w [backup_lookup T o]) Hres Hty).
    + rewrite <- list_fmap_compose.
      assert (Htwice :
        (wire_component (dataSource_of (Backup o))
         ∘ wire_component (dataSource_of (Backup o)) <$> cs)
        = (wire_component (dataSource_of (Backup o)) <$> cs)).
      { apply list_fmap_ext. intros _ c _. simpl. apply wire_component_twice. }
      rewrite Htwice. eauto.
    + apply forallb_forall.
      intros c (c0 & -> & Hc0)%list_elem_of_In%list_elem_of_fmap.
      rewrite wire_component_carries.
      rewrite forallb_forall in Hcs. by apply Hcs, list_elem_of_In.
Qed.

Lemma carries_templates_monitored (monitor : bool)
  (ms : list (gmap string value)) :
  forallb carries_templates (MapOf ∘ insert monitorKey (VBool monitor) <$> ms)
  = forallb carries_templates (MapOf <$> ms).
Proof.
  induction ms as [|m ms IH]; [reflexivity |].
  rewrite !fmap_cons. cbn [forallb]. rewrite IH. f_equal.
  apply carries_templates_insert_monitor.
Qed.

Lemma setMonitor_range_wired (monitor : bool) (dataSource : gmap string value)
  (ms : list (gmap string value)) :
  setMonitor_range monitor (wire_component dataSource <$> (MapOf <$> ms))
  = Done (wire_component dataSource
            <$> (MapOf ∘ insert monitorKey (VBool monitor) <$> ms)).
Proof.
  induction ms as [|m ms IH]; [reflexivity |].
  rewrite !fmap_cons.
  destruct (wire_component_insert_monitor dataSource (VBool monitor) m)
    as (m' & Hm & Hm').
  rewrite Hm, setMonitor_range_cons, IH.
  change ((MapOf ∘ insert monitorKey (VBool monitor)) m)
    with (MapOf (<[monitorKey := VBool monitor]> m)).
  rewrite Hm'. reflexivity.
Qed.

(** X9: the two overlays commute.  When the monitor overlay followed by the
    backup overlay succeeds, the backup overlay followed by the monitor
    overlay succeeds too, with the same component list and the same
    lookup. *)
Theorem overlays_commute (monitor : bool) (o : CreateOptions)
  (components monitored final : slice GoMap) (w w' : World) :
  setMonitor monitor components = Done monitored →
  setBackup T o monitored w = Done ((final, None), w') →
  ∃ backed, setBackup T o components w = Done ((backed, None), w') ∧
            setMonitor monitor backed = Done final.
Proof.
  intros Hmon Hback.
  destruct components as [|cs]; simpl in Hmon.
  - inversion Hmon; subst. rewrite setBackup_guard in Hback by auto.
    inversion Hback; subst. exists SliceNil.
    split; [by apply setBackup_guard; auto | reflexivity].
  - destruct (setMonitor_range monitor cs) as [cs'|] eqn:E; [| discriminate].
    simpl in Hmon. inversion Hmon; subst. clear Hmon.
    destruct (setMonitor_range_Done _ _ _ E) as (ms & -> & ->).
    destruct (setBackup_outcomes o
                (SliceOf (MapOf ∘ insert monitorKey (VBool monitor) <$> ms)))
      as [[[Hg|Hg] Eb] | (Hb & cs0 & Hcs0 & [[e Eb] | (job & Hres & Hty & Eb)])];
      try discriminate; rewrite Eb in Hback.
    + inversion Hback; subst. exists (SliceOf (MapOf <$> ms)).
      split; [by apply setBackup_guard; auto |]. simpl. by rewrite E.
    + inversion Hback.
    + inversion Hcs0; subst cs0. clear Hcs0.
      destruct (setBackup_range _ _) as [l|] eqn:Er; [| discriminate].
      inversion Hback; subst. clear Hback.
      apply setBackup_range_Done in Er as [Hcs ->].
      rewrite carries_templates_monitored in Hcs.
      eexists. split.
      * apply (setBackup_snapshot T o job (MapOf <$> ms) w Hres Hty Hcs).
      * simpl. by rewrite setMonitor_range_wired.
Qed.

End BackupOverlayMore.

(** ** Wiring a snapshot *)

Section SnapshotWiring.
Variable T : types.Constants.

(** C3, amended: for every non-empty backup reference whose backup job is
    fetched with type "snapshot", and every non-nil component list in which
    each component carries a [volumeClaimTemplates] list of maps whose
    [spec] field is absent or a map, [setBackup] succeeds; the list it
    leaves has the components given, one for one, each with the templates
    it had, one for one and with their other fields, and every entry of
    every component's [volumeClaimTemplates] has the descriptor at
    [spec.dataSource]. *)
Theorem setBackup_wires_every_template (o : CreateOptions) (job : Unstructured)
  (cs : list GoMap) (w : World) :
  resolves T o job →
  backupType_of job = "snapshot" →
  forallb templates_settable cs = true →
  ∃ cs', setBackup T o (SliceOf cs) w
         = Done ((SliceOf cs', None), after w [backup_lookup T o]) ∧
         cs' = wire_component (dataSource_of (Backup o)) <$> cs ∧
         Forall2 component_frame cs cs' ∧
         Forall (wired (Backup o)) cs'.
Proof.
  intros Hres Hty Hcs. rewrite forallb_forall in Hcs.
  assert (Hcarries : forallb carries_templates cs = true).
  { apply forallb_forall. intros c Hc. by apply settable_carries, Hcs. }
  eexists. split; [| split; [reflexivity | split]].
  - apply (setBackup_snapshot T o job cs w Hres Hty Hcarries).
  - apply Forall2_fmap_r, Forall2_same_length_lookup.
    split; [reflexivity |]. intros i c c' Hc Hc'. rewrite Hc in Hc'.
    inversion Hc'; subst. apply wire_component_frame.
    rewrite forallb_forall in Hcarries. apply Hcarries, list_elem_of_In.
    by apply list_elem_of_lookup_2 in Hc.
  - apply Forall_fmap, Forall_forall. intros c Hc. simpl.
    apply wire_component_wired, Hcs. by apply list_elem_of_In.
Qed.

End SnapshotWiring.

(** Scenario 3 of the specification: [snap2] is a snapshot backup, and the
    one template of [c1] receives the descriptor. *)
Example setBackup_scenario :
  setBackup Sample.T
    (Sample.options "mycluster" "Halt" "component.yaml" "snap2" false)
    (SliceOf [MapOf Sample.c1]) Sample.world
  = Done ((SliceOf
             [MapOf
                {[ "name" := VString "c1"; "type" := VString "t1";
                   "volumeClaimTemplates" :=
                     VList [VMap {[ "spec" :=
                                      VMap {[ "dataSource" :=
                                                VMap (descriptor "snap2") ]} ]}] ]}],
           None),
          after Sample.world
            [EvResourceGet
               {| schema.Group := "dataprotection.kubeblocks.io";
                  schema.Version := "v1alpha1";
                  schema.Resource := "backupjobs" |}
               "default" "snap2"]).
Proof. vm_compute. reflexivity. Qed.

Lemma setBackup_wires_every_template_witness :
  ∃ cs', setBackup Sample.T
           (Sample.options "mycluster" "Halt" "component.yaml" "snap2" false)
           (SliceOf [MapOf Sample.c1]) Sample.world
         = Done ((SliceOf cs', None),
                 after Sample.world
                   [backup_lookup Sample.T
                      (Sample.options "mycluster" "Halt" "component.yaml" "snap2" false)]) ∧
         cs' = wire_component (dataSource_of "snap2") <$> [MapOf Sample.c1] ∧
         Forall2 component_frame [MapOf Sample.c1] cs' ∧
         Forall (wired "snap2") cs'.
Proof.
  apply (setBackup_wires_every_template Sample.T
           (Sample.options "mycluster" "Halt" "component.yaml" "snap2" false)
           (Sample.backupJob (VString "snapshot"))).
  - split; [discriminate | reflexivity].
  - reflexivity.
  - reflexivity.
Defined.

(** A rejected backup leaves the sample component as it was. *)
Lemma setBackup_error_keeps_components_witness :
  SliceOf [MapOf Sample.c1] = SliceOf [MapOf Sample.c1].
Proof.
  apply (setBackup_error_keeps_components Sample.T
           (Sample.options "mycluster" "Halt" "component.yaml" "snap1" false)
           (SliceOf [MapOf Sample.c1]) (SliceOf [MapOf Sample.c1])
           "only support snapshot backup, specified backup type is 'full'"
           Sample.world
           (after Sample.world
              [backup_lookup Sample.T
                 (Sample.options "mycluster" "Halt" "component.yaml" "snap1" false)])).
  reflexivity.
Defined.

(** Scenario 3 again: one lookup, of the backup job [snap2]. *)
Lemma setBackup_one_lookup_witness :
  let o := Sample.options "mycluster" "Halt" "component.yaml" "snap2" false in
  (Backup o = "" ∨ SliceOf [MapOf Sample.c1] = SliceNil →
   after Sample.world [backup_lookup Sample.T o] = Sample.world) ∧
  (Backup o ≠ "" → SliceOf [MapOf Sample.c1] ≠ SliceNil →
   after Sample.world [backup_lookup Sample.T o]
   = after Sample.world [backup_lookup Sample.T o]).
Proof.
  apply (setBackup_one_lookup Sample.T
           (Sample.options "mycluster" "Halt" "component.yaml" "snap2" false)
           (SliceOf [MapOf Sample.c1])
           (SliceOf (wire_component (dataSource_of "snap2") <$> [MapOf Sample.c1]))
           None Sample.world).
  reflexivity.
Defined.

(** Scenario 3 again: the sample component keeps its name and type. *)
Lemma setBackup_frame_witness :
  Forall2 component_frame [MapOf Sample.c1]
    (wire_component (dataSource_of "snap2") <$> [MapOf Sample.c1]).
Proof.
  apply (setBackup_frame Sample.T
           (Sample.options "mycluster" "Halt" "component.yaml" "snap2" false)
           (Sample.backupJob (VString "snapshot"))
           [MapOf Sample.c1] _ None Sample.world
           (after Sample.world
              [backup_lookup Sample.T
                 (Sample.options "mycluster" "Halt" "component.yaml" "snap2" false)])).
  - split; [discriminate | reflexivity].
  - reflexivity.
  - reflexivity.
Defined.

(** Wiring the sample component twice. *)
Lemma setBackup_again_witness :
  ∃ w'',
    setBackup Sample.T
      (Sample.options "mycluster" "Halt" "component.yaml" "snap2" false)
      (SliceOf (wire_component (dataSource_of "snap2") <$> [MapOf Sample.c1]))
      (after Sample.world
         [backup_lookup Sample.T
            (Sample.options "mycluster" "Halt" "component.yaml" "snap2" false)])
    = Done ((SliceOf (wire_component (dataSource_of "snap2") <$> [MapOf Sample.c1]),
             None), w'').
Proof.
  apply (setBackup_again Sample.T
           (Sample.options "mycluster" "Halt" "component.yaml" "snap2" false)
           (SliceOf [MapOf Sample.c1]) _ None Sample.world).
  reflexivity.
Defined.

(** Monitoring and wiring the sample component, in either order. *)
Lemma overlays_commute_witness :
  ∃ backed,
    setBackup Sample.T
      (Sample.options "mycluster" "Halt" "component.yaml" "snap2" false)
      (SliceOf [MapOf Sample.c1]) Sample.world
    = Done ((backed, None),
            after Sample.world
              [backup_lookup Sample.T
                 (Sample.options "mycluster" "Halt" "component.yaml" "snap2" false)]) ∧
    setMonitor true backed
    = Done (SliceOf
              (wire_component (dataSource_of "snap2")
                 <$> [MapOf (<[monitorKey := VBool true]> Sample.c1)])).
Proof.
  apply (overlays_commute Sample.T true
           (Sample.options "mycluster" "Halt" "component.yaml" "snap2" false)
           (SliceOf [MapOf Sample.c1])
           (SliceOf [MapOf (<[monitorKey := VBool true]> Sample.c1)])).
  - reflexivity.
  - reflexivity.
Defined.

(** ** More on log enablement *)

Section LogEnablementMore.
Variable EqualFold : string → string → bool.

Lemma setEnableAllLogs_eq (c : Cluster.t) (cd : ClusterDefinition.t) :
  setEnableAllLogs EqualFold c cd
  = {| Cluster.Spec :=
         ClusterSpec.set_Components
           ((fun component =>
               ClusterComponent.set_EnabledLogs
                 (expected_EnabledLogs EqualFold
                    (ClusterDefinitionSpec.Components (ClusterDefinition.Spec cd))
                    component) component)
              <$> ClusterSpec.Components (Cluster.Spec c))
           (Cluster.Spec c) |}.
Proof.
  unfold setEnableAllLogs. do 2 f_equal.
  apply (setEnableAllLogs_range_app EqualFold _
           (ClusterSpec.Components (Cluster.Spec c)) []).
Qed.

Lemma expected_EnabledLogs_again (coms : list ClusterDefinitionComponent.t)
  (component : ClusterComponent.t) :
  expected_EnabledLogs EqualFold coms
    (ClusterComponent.set_EnabledLogs
       (expected_EnabledLogs EqualFold coms component) component)
  = expected_EnabledLogs EqualFold coms component.
Proof.
  unfold expected_EnabledLogs. simpl.
  by destruct (last (matching_definitions EqualFold
                       (ClusterComponent.Type_ component) coms)).
Qed.

(** X14: enabling all logs twice from the same definition is enabling them
    once. *)
Theorem setEnableAllLogs_idempotent (c : Cluster.t) (cd : ClusterDefinition.t) :
  setEnableAllLogs EqualFold (setEnableAllLogs EqualFold c cd) cd
  = setEnableAllLogs EqualFold c cd.
Proof.
  rewrite (setEnableAllLogs_eq (setEnableAllLogs EqualFold c cd) cd).
  rewrite (setEnableAllLogs_eq c cd). simpl.
  unfold ClusterSpec.set_Components. simpl. do 2 f_equal.
  rewrite <- list_fmap_compose. apply list_fmap_ext.
  intros _ component _. simpl. rewrite expected_EnabledLogs_again.
  reflexivity.
Qed.

(** X15: [setEnableAllLogs] changes nothing but the enabled logs: the
    cluster keeps its references and its termination policy, and its
    components, one for one, keep their name, type, monitor flag and
    templates. *)
Theorem setEnableAllLogs_frame (c : Cluster.t) (cd : ClusterDefinition.t) :
  let c' := setEnableAllLogs EqualFold c cd in
  ClusterSpec.ClusterDefRef (Cluster.Spec c')
  = ClusterSpec.ClusterDefRef (Cluster.Spec c) ∧
  ClusterSpec.AppVersionRef (Cluster.Spec c')
  = ClusterSpec.AppVersionRef (Cluster.Spec c) ∧
  ClusterSpec.TerminationPolicy (Cluster.Spec c')
  = ClusterSpec.TerminationPolicy (Cluster.Spec c) ∧
  Forall2 logs_frame (ClusterSpec.Components (Cluster.Spec c))
    (ClusterSpec.Components (Cluster.Spec c')).
Proof.
  intros c'. subst c'. rewrite (setEnableAllLogs_eq c cd). simpl.
  repeat split.
  apply Forall2_fmap_r, Forall2_same_length_lookup.
  split; [reflexivity |]. intros i x y Hx Hy. rewrite Hx in Hy.
  inversion Hy; subst. by repeat split.
Qed.

(** X16: when no definition entry matches the type of any component, as
    with a definition without component types or a cluster without
    components, [setEnableAllLogs] returns the cluster as it was. *)
Theorem setEnableAllLogs_no_match (c : Cluster.t) (cd : ClusterDefinition.t) :
  Forall (fun component =>
            Forall (fun com =>
                      EqualFold (ClusterComponent.Type_ component)
                        (ClusterDefinitionComponent.TypeName com) = false)
              (ClusterDefinitionSpec.Components (ClusterDefinition.Spec cd)))
    (ClusterSpec.Components (Cluster.Spec c)) →
  setEnableAllLogs EqualFold c cd = c.
Proof.
  intros H. rewrite (setEnableAllLogs_eq c cd).
  destruct c as [[ref app policy components]]. simpl in *.
  unfold ClusterSpec.set_Components. simpl. do 2 f_equal.
  rewrite <- (list_fmap_id components) at 2.
  apply list_fmap_ext. intros i component Hc. simpl.
  rewrite Forall_forall in H.
  rewrite (expected_EnabledLogs_no_match EqualFold _ component)
    by (apply H; by apply list_elem_of_lookup_2 in Hc).
  apply set_EnabledLogs_same.
Qed.

End LogEnablementMore.

(** The sample definition has no type [other]. *)
Lemma setEnableAllLogs_no_match_witness :
  setEnableAllLogs Sample.EqualFold
    (Sample.cluster [Sample.component "c2" "other" ["audit"]]) Sample.definition
  = Sample.cluster [Sample.component "c2" "other" ["audit"]].
Proof.
  apply (setEnableAllLogs_no_match Sample.EqualFold
           (Sample.cluster [Sample.component "c2" "other" ["audit"]])
           Sample.definition).
  repeat constructor.
Defined.

(** ** More on the pre-submit stage *)

Section PreSubmitStageMore.
Variable EqualFold : string → string → bool.
Variable T : types.Constants.
Variable converter : runtime.UnstructuredConverter.

(** X12: [PreCreate] replaces the document all or nothing.  When it returns
    an error the document is the one it was given; when it returns nil with
    all logs enabled, the document is the conversion of the cluster it
    held, with the logs enabled from the definition that was fetched. *)
Theorem PreCreate_all_or_nothing (o : CreateOptions) (obj obj' : Unstructured)
  (err : error) (w w' : World) :
  PreCreate EqualFold T converter o obj w = Done ((obj', err), w') →
  match err with
  | Some _ => obj' = obj
  | None =>
      if EnableAllLogs o then
        ∃ c res cd,
          runtime.FromUnstructured_Cluster converter (Object obj) = inl c ∧
          dynamic.answer (create.Client (BaseOptions o)) (types.ClusterDefGVR T)
            "" (ClusterSpec.ClusterDefRef (Cluster.Spec c)) = inl res ∧
          runtime.FromUnstructured_ClusterDefinition converter (Object res)
          = inl cd ∧
          runtime.ToUnstructured converter (setEnableAllLogs EqualFold c cd)
          = inl (Object obj')
      else obj' = obj
  end.
Proof.
  unfold PreCreate. destruct (EnableAllLogs o); simpl;
    [| intros H; by inversion H].
  destruct (runtime.FromUnstructured_Cluster converter (Object obj))
    as [c|e] eqn:Ec; [| intros H; by inversion H].
  unfold dynamic.Get, mbind, M_bind, emit, mret, M_ret.
  destruct (dynamic.answer _ _ _ _) as [res|e] eqn:Eres;
    [| intros H; by inversion H].
  destruct (runtime.FromUnstructured_ClusterDefinition converter (Object res))
    as [cd|e] eqn:Ecd; [| intros H; by inversion H].
  destruct (runtime.ToUnstructured converter _) as [data|e] eqn:Edata;
    intros H; inversion H; subst; [| reflexivity].
  exists c, res, cd. by repeat split.
Qed.

(** X13: [PreCreate] makes at most one remote call: when all logs are
    enabled and the document converts to a cluster, the lookup of the
    cluster definition that the document names, outside any namespace; in
    every other case none. *)
Theorem PreCreate_one_lookup (o : CreateOptions) (obj obj' : Unstructured)
  (err : error) (w w' : World) :
  PreCreate EqualFold T converter o obj w = Done ((obj', err), w') →
  w' = match EnableAllLogs o,
             runtime.FromUnstructured_Cluster converter (Object obj) with
       | true, inl c =>
           after w [EvResourceGet (types.ClusterDefGVR T) ""
                      (ClusterSpec.ClusterDefRef (Cluster.Spec c))]
       | _, _ => w
       end.
Proof.
  unfold PreCreate. destruct (EnableAllLogs o); simpl;
    [| intros H; by inversion H].
  destruct (runtime.FromUnstructured_Cluster converter (Object obj))
    as [c|e]; [| intros H; by inversion H].
  unfold dynamic.Get, mbind, M_bind, emit, mret, M_ret.
  destruct (dynamic.answer _ _ _ _) as [res|e]; [| intros H; by inversion H].
  destruct (runtime.FromUnstructured_ClusterDefinition converter (Object res))
    as [cd|e]; [| intros H; by inversion H].
  destruct (runtime.ToUnstructured converter _) as [data|e];
    intros H; by inversion H.
Qed.

End PreSubmitStageMore.

(** With all logs enabled and a document that does not convert, the error
    is returned, the document kept and nothing looked up. *)
Lemma PreCreate_all_or_nothing_witness :
  {| Object := Sample.c1 |} = {| Object := Sample.c1 |}.
Proof.
  apply (PreCreate_all_or_nothing Sample.EqualFold Sample.T Sample.converter
           (Sample.options "mycluster" "Halt" "component.yaml" "" true)
           {| Object := Sample.c1 |} {| Object := Sample.c1 |}
           (Some "unsupported") Sample.world Sample.world).
  reflexivity.
Defined.

Lemma PreCreate_one_lookup_witness : Sample.world = Sample.world.
Proof.
  apply (PreCreate_one_lookup Sample.EqualFold Sample.T Sample.converter
           (Sample.options "mycluster" "Halt" "component.yaml" "" true)
           {| Object := Sample.c1 |} {| Object := Sample.c1 |}
           (Some "unsupported") Sample.world Sample.world).
  reflexivity.
Defined.

(** ** Completing a request *)

Lemma setMonitor_Done_monitor (monitor : bool) (components monitored : slice GoMap) :
  setMonitor monitor components = Done monitored →
  Forall (fun c => map_index c monitorKey = VBool monitor)
    (slice_elems monitored).
Proof.
  destruct components as [|cs]; simpl; intros H.
  - inversion H. constructor.
  - destruct (setMonitor_range monitor cs) as [cs'|] eqn:E; [| discriminate].
    simpl in H. inversion H; subst.
    destruct (setMonitor_range_Done _ _ _ E) as (ms & -> & ->). simpl.
    apply Forall_fmap, Forall_forall. intros m _. simpl.
    by rewrite lookup_insert_eq.
Qed.

Section CompleteMore.
Variable T : types.Constants.
Variable YAMLToJSON : slice byte → slice byte + string.
Variable Unmarshal : slice byte → slice GoMap → slice GoMap + string.

(** [Complete] past the loading of the components. *)
Lemma Complete_loaded (o : CreateOptions) (w : World) :
  Complete T YAMLToJSON Unmarshal o w =
    match
      (if (0 <? String.length (ComponentsFilePath o))%nat then
         match multipleSourceComponents (ComponentsFilePath o)
                 (create.IOStreams (BaseOptions o)) w with
         | Done ((componentByte, err), w1) =>
             match err with
             | Some e => Done (inr e, w1)
             | None =>
                 match YAMLToJSON componentByte with
                 | inr e => Done (inr e, w1)
                 | inl json =>
                     match Unmarshal json (Components o) with
                     | inr e => Done (inr e, w1)
                     | inl components => Done (inl components, w1)
                     end
                 end
             end
         | Panic msg => Panic msg
         end
       else Done (inl (Components o), w))
    with
    | Done (inr e, w1) => Done (NotCompleted e, w1)
    | Done (inl components, w1) =>
        match setMonitor (Monitor o) components with
        | Done monitored =>
            match setBackup T o monitored w1 with
            | Done ((final, None), w2) => Done (Completed final, w2)
            | Done ((_, Some e), w2) => Done (NotCompleted e, w2)
            | Panic msg => Panic msg
            end
        | Panic msg => Panic msg
        end
    | Panic msg => Panic msg
    end.
Proof.
  unfold Complete, mbind, M_bind, mret, M_ret, lift.
  destruct (0 <? String.length (ComponentsFilePath o))%nat.
  - destruct (multipleSourceComponents _ _ w) as [[[componentByte err] w1]|];
      [| reflexivity].
    destruct err as [e|]; [reflexivity |].
    destruct (YAMLToJSON componentByte) as [json|e]; [| reflexivity].
    destruct (Unmarshal json (Components o)) as [components|e]; [| reflexivity].
    destruct (setMonitor (Monitor o) components) as [monitored|]; [| reflexivity].
    destruct (setBackup T o monitored w1) as [[[final [e|]] w2]|]; reflexivity.
  - destruct (setMonitor (Monitor o) (Components o)) as [monitored|];
      [| reflexivity].
    destruct (setBackup T o monitored w) as [[[final [e|]] w2]|]; reflexivity.
Qed.

(** X10: when the components cannot be loaded or decoded, [Complete]
    returns that error and stops there: the bytes read before a failure are
    dropped, no overlay runs and nothing is looked up, the world being the
    one the loading left. *)
Theorem Complete_stops_at_loading (o : CreateOptions) (componentByte : slice byte)
  (err : error) (w w1 : World) :
  ComponentsFilePath o ≠ "" →
  multipleSourceComponents (ComponentsFilePath o)
    (create.IOStreams (BaseOptions o)) w = Done ((componentByte, err), w1) →
  match err with
  | Some e => Complete T YAMLToJSON Unmarshal o w = Done (NotCompleted e, w1)
  | None =>
      match YAMLToJSON componentByte with
      | inr e => Complete T YAMLToJSON Unmarshal o w = Done (NotCompleted e, w1)
      | inl json =>
          ∀ e, Unmarshal json (Components o) = inr e →
               Complete T YAMLToJSON Unmarshal o w = Done (NotCompleted e, w1)
      end
  end.
Proof.
  intros Hpath Hload. rewrite Complete_loaded.
  assert ((0 <? String.length (ComponentsFilePath o))%nat = true) as ->
    by (by destruct (ComponentsFilePath o)).
  rewrite Hload. destruct err as [e|]; [reflexivity |].
  destruct (YAMLToJSON componentByte) as [json|e]; [| reflexivity].
  intros e He. by rewrite He.
Qed.

(** X11: when [Complete] returns nil, every component of the list it
    assigns carries the monitor flag of the request, with or without a
    backup to restore. *)
Theorem Complete_monitor_everywhere (o : CreateOptions)
  (components : slice GoMap) (w w' : World) :
  Complete T YAMLToJSON Unmarshal o w = Done (Completed components, w') →
  Forall (fun c => map_index c monitorKey = VBool (Monitor o))
    (slice_elems components).
Proof.
  rewrite Complete_loaded.
  match goal with
  | |- match ?load with _ => _ end = _ → _ =>
      destruct load as [[[loaded|e] w1]|]; [| discriminate | discriminate]
  end.
  destruct (setMonitor (Monitor o) loaded) as [monitored|] eqn:Emon;
    [| discriminate].
  apply setMonitor_Done_monitor in Emon.
  destruct (setBackup_outcomes T o monitored)
    as [[_ E] | (_ & cs & -> & [[e E] | (job & _ & _ & E)])];
    rewrite E; try (intros H; inversion H; subst; assumption).
  destruct (setBackup_range (dataSource_of (Backup o)) cs) as [cs'|] eqn:Er;
    [| discriminate].
  intros H. inversion H; subst. clear H.
  apply setBackup_range_Done in Er as [_ ->]. simpl in *.
  apply Forall_fmap. eapply Forall_impl; [exact Emon |].
  intros c Hc. simpl. by rewrite wire_component_monitor.
Qed.

End CompleteMore.

(** The sample input stream breaks: the request is not completed. *)
Lemma Complete_stops_at_loading_witness :
  Complete Sample.T Sample.YAMLToJSON Sample.Unmarshal
    (Sample.options "mycluster" "Halt" "-" "snap2" true) Sample.world
  = Done (NotCompleted "read error", Sample.world).
Proof.
  apply (Complete_stops_at_loading Sample.T Sample.YAMLToJSON Sample.Unmarshal
           (Sample.options "mycluster" "Halt" "-" "snap2" true)
           (SliceOf ["a"%byte; "b"%byte]) (Some "read error")
           Sample.world Sample.world).
  - discriminate.
  - reflexivity.
Defined.

(** A document fetched from a URL, without a backup to restore: the
    component is assigned with the flag of the request. *)
Lemma Complete_monitor_everywhere_witness :
  Forall (fun c => map_index c monitorKey = VBool false)
    [MapOf (<[monitorKey := VBool false]> Sample.c1)].
Proof.
  apply (Complete_monitor_everywhere Sample.T Sample.YAMLToJSON Sample.Unmarshal
           (Sample.options "mycluster" "Halt"
              "http://kubeblocks.io/yamls/wesql_single.yaml" "" false)
           (SliceOf [MapOf (<[monitorKey := VBool false]> Sample.c1)])
           Sample.world
           (after Sample.world
              [EvHttpGet "http://kubeblocks.io/yamls/wesql_single.yaml";
               EvCloseBody "http://kubeblocks.io/yamls/wesql_single.yaml"])).
  reflexivity.
Defined.
